(** * Telegram account manager bot: authentication orchestration

    A shallow embedding of [src/main.py]: the record store
    ([DatabaseManager]), the pending-authentication registry and protocol
    sequencing ([TelegramAccountManager]) and the conversation state machine
    with its update dispatcher ([TelegramBot]).

    Modelling conventions.
    - A Python [str] is the [string] of its UTF-8 bytes; [len] counts the
      characters, that is the bytes that do not continue a character, and
      [startswith] is [String.prefix].
    - A Python [int] is a [Z]; [str(n)] is stdpp's decimal [pretty].
    - A [dict] is a [gmap]; [d[k] = v] is insert, [del d[k]] is delete
      (raising [KeyError] when the key is absent) and [k in d] is a lookup.
    - An [async def] is a computation in the monad [M]: it threads the
      program state and either returns a value or raises an exception.  The
      mutations made before a raise persist, as they do in Python.
    - What the outside world does (the account client, the HTTP transport,
      the file system, the clocks) is read from an environment [env]; one
      environment describes the world during the processing of one update. *)

From stdpp Require Import gmap strings list pretty.
From Stdlib Require Import ZArith Ascii String.

Local Open Scope string_scope.
Local Open Scope list_scope.
Local Open Scope Z_scope.

(** ** Exceptions and results *)

(** The exception classes the program names, raises itself or catches.  All
    of them derive from Python's [Exception]. *)
Inductive exn_class : Type :=
  | PhoneNumberInvalidError
  | PhoneCodeInvalidError
  | PhoneCodeExpiredError
  | SessionPasswordNeededError
  | PasswordHashInvalidError
  | FloodWaitError (seconds : Z)
  | KeyError
  | ValueError
  | SyntaxError
  | OtherException.

(** An exception object: its class and what [str(e)] gives. *)
Record exn : Type := Exn { exn_class_of : exn_class; exn_str : string }.

Inductive result (A : Type) : Type :=
  | Ok (a : A)
  | Raise (e : exn).
Arguments Ok {A} a.
Arguments Raise {A} e.

Definition is_ok {A} (r : result A) : bool :=
  match r with Ok _ => true | Raise _ => false end.

(** ** Python string helpers *)

(** [s.split(sep)] for a one-character separator. *)
Fixpoint split_go (sep : ascii) (cur : string) (s : string) : list string :=
  match s with
  | EmptyString => [String.rev cur]
  | String c s' =>
      if Ascii.eqb c sep then String.rev cur :: split_go sep EmptyString s'
      else split_go sep (String c cur) s'
  end.

Definition split (sep : ascii) (s : string) : list string :=
  split_go sep EmptyString s.

(** [c in s] for a character. *)
Fixpoint mem_char (c : ascii) (s : string) : bool :=
  match s with
  | EmptyString => false
  | String c' s' => Ascii.eqb c c' || mem_char c s'
  end.

(** A byte [10xxxxxx] continues a character of two or more bytes. *)
Definition is_continuation (c : ascii) : bool :=
  let n := nat_of_ascii c in (128 <=? n)%nat && (n <? 192)%nat.

(** [len(s)]: the number of characters. *)
Fixpoint len (s : string) : nat :=
  match s with
  | EmptyString => 0%nat
  | String c s' => if is_continuation c then len s' else S (len s')
  end.

(** All characters are ASCII. *)
Fixpoint is_ascii (s : string) : bool :=
  match s with
  | EmptyString => true
  | String c s' => (nat_of_ascii c <? 128)%nat && is_ascii s'
  end.

Definition double_quote : ascii := ascii_of_nat 34.

Definition hex_digit (n : nat) : ascii :=
  if (n <? 10)%nat then ascii_of_nat (48 + n) else ascii_of_nat (87 + n).

(** How [repr] writes one ASCII character between quotes [q]. *)
Definition repr_char (q c : ascii) : string :=
  let n := nat_of_ascii c in
  if Ascii.eqb c "\" then "\\"
  else if Ascii.eqb c q then String "\" (String q "")
  else if (n =? 9)%nat then "\t"
  else if (n =? 10)%nat then "\n"
  else if (n =? 13)%nat then "\r"
  else if (n <? 32)%nat || (n =? 127)%nat
       then String "\" (String "x" (String (hex_digit (n / 16))
                                   (String (hex_digit (n mod 16)) "")))
  else String c "".

Fixpoint repr_chars (q : ascii) (s : string) : string :=
  match s with
  | EmptyString => EmptyString
  | String c s' => repr_char q c +:+ repr_chars q s'
  end.

(** [repr(s)] of an ASCII text: in single quotes, or in double quotes when
    the text has a single quote and no double quote. *)
Definition repr_ascii (s : string) : string :=
  let q := if mem_char "'" s && negb (mem_char double_quote s)
           then double_quote else "'"%char in
  String q (repr_chars q s +:+ String q "").

Definition digit_of (c : ascii) : option Z :=
  let n := Z.of_nat (nat_of_ascii c) in
  if (48 <=? n) && (n <=? 57) then Some (n - 48) else None.

Fixpoint digits_go (acc : Z) (s : string) : option Z :=
  match s with
  | EmptyString => Some acc
  | String c s' =>
      match digit_of c with
      | Some d => digits_go (10 * acc + d) s'
      | None => None
      end
  end.

Definition is_digit (c : ascii) : bool :=
  match digit_of c with Some _ => true | None => false end.

(** Removes the underscores of a decimal literal; each must stand between
    two digits. *)
Fixpoint drop_underscores (after_digit : bool) (s : string) : option string :=
  match s with
  | EmptyString => Some EmptyString
  | String c s' =>
      if Ascii.eqb c "_" then
        if after_digit
           && match s' with String d _ => is_digit d | EmptyString => false end
        then drop_underscores false s'
        else None
      else String c <$> drop_underscores (is_digit c) s'
  end.

(** A run of one or more decimal digits, with single underscores allowed
    between them. *)
Definition digits (s : string) : option Z :=
  match drop_underscores false s with
  | Some (String c s') => digits_go 0 (String c s')
  | _ => None
  end.

Fixpoint lstrip (s : string) : string :=
  match s with
  | String c s' => if Ascii.is_space c then lstrip s' else s
  | EmptyString => EmptyString
  end.

Definition strip (s : string) : string :=
  String.rev (lstrip (String.rev (lstrip s))).

(** [l[i]]: [IndexError] (not a class the program distinguishes) when out of
    range. *)
Definition list_item {A} (l : list A) (i : nat) : result A :=
  match l !! i with
  | Some x => Ok x
  | None => Raise (Exn OtherException "list index out of range")
  end.

(** ** Inbound updates (Telegram Bot API objects)

    A field the Bot API marks optional is an [option]; subscripting a
    missing field raises [KeyError]. *)

Record tg_user : Type := TgUser {
  user_id_of : Z;
  username : option string;
  first_name : option string;
  last_name : option string }.

Record tg_chat : Type := TgChat { chat_id_of : Z; chat_type : string }.

Record tg_message : Type := TgMessage {
  message_id : Z;
  msg_from : option tg_user;
  msg_chat : tg_chat;
  msg_text : option string }.

Record tg_callback_query : Type := TgCallbackQuery {
  cq_id : string;
  cq_from : tg_user;
  cq_message : option tg_message;
  cq_data : option string }.

Record tg_update : Type := TgUpdate {
  update_id : Z;
  upd_message : option tg_message;
  upd_callback_query : option tg_callback_query }.

(** [d[key]] on an optional field. *)
Definition subscript {A} (key : string) (o : option A) : result A :=
  match o with
  | Some a => Ok a
  | None => Raise (Exn KeyError ("'" +:+ key +:+ "'"))
  end.

(** ** Outbound requests *)

Inductive reply_markup : Type :=
  | ReplyKeyboard (rows : list (list string))
  | InlineKeyboard (rows : list (list (string * string))).

Inductive request : Type :=
  | SendMessage (chat_id : Z) (text : string) (markup : option reply_markup)
  | EditMessageText (chat_id : Z) (message_id : Z) (text : string)
      (markup : option reply_markup)
  | AnswerCallbackQuery (callback_query_id : string) (text : string).

(** ** The account client (telethon's [TelegramClient])

    The object the program drives but does not implement: each method either
    returns or raises. *)
Record TelegramClient : Type := {
  connect : result unit;
  is_user_authorized : result bool;
  disconnect : result unit;
  (** [send_code_request(phone)] returns the [phone_code_hash]. *)
  send_code_request : string -> result string;
  (** [sign_in(phone=, code=, phone_code_hash=)] *)
  sign_in_code : string -> string -> string -> result unit;
  (** [sign_in(password=)] *)
  sign_in_password : string -> result unit }.

(** ** The world during one update *)
Record env : Type := {
  (** [os.makedirs("sessions", exist_ok=True)] *)
  makedirs : result unit;
  (** [TelegramClient(session_name, API_ID, API_HASH)] *)
  new_client : string -> TelegramClient;
  (** fate of the [n]-th HTTP request the bot ever posts *)
  http_post : nat -> result unit;
  (** [datetime.now()] *)
  now : Z;
  (** SQLite's [CURRENT_TIMESTAMP], in whole seconds *)
  current_timestamp : Z;
  (** [int(s)] for a text with a character outside ASCII: which characters
      of other scripts count as digits and as white space is the
      interpreter's table *)
  int_unicode : string -> result Z }.

(** [int(s)]: surrounding white space is stripped, one sign is allowed, then
    come decimal digits; anything else raises [ValueError]. *)
Definition int (E : env) (s : string) : result Z :=
  if is_ascii s then
    let bad := Raise (Exn ValueError
                 ("invalid literal for int() with base 10: " +:+ repr_ascii s)) in
    match strip s with
    | String "-" r => match digits r with Some n => Ok (- n) | None => bad end
    | String "+" r => match digits r with Some n => Ok n | None => bad end
    | r => match digits r with Some n => Ok n | None => bad end
    end
  else int_unicode E s.

(** ** Persistent records (the three SQLite tables) *)

(** A row of [telegram_bot_users], kept under its key [user_id]. *)
Record user_row : Type := UserRow {
  ur_username : option string;
  ur_first_name : option string;
  ur_last_name : option string;
  ur_created_at : Z;
  ur_is_active : bool }.

Record number_row : Type := NumberRow {
  nr_id : Z;
  nr_user_id : Z;
  nr_phone_number : string;
  nr_is_authenticated : bool;
  nr_added_at : Z;
  nr_last_login : option Z;
  nr_status : string }.

Record session_row : Type := SessionRow {
  sr_id : Z;
  sr_user_id : Z;
  sr_phone_number : string;
  sr_session_data : option string;
  sr_session_file_path : string;
  sr_created_at : Z;
  sr_is_active : bool }.

(** Every call made on the [DatabaseManager], in order. *)
Inductive db_call : Type :=
  | AddUser (user_id : Z)
  | AddPhoneNumber (user_id : Z) (phone_number : string)
  | GetUserNumbers (user_id : Z)
  | GetNumberId (user_id : Z) (phone_number : string)
  | UpdateNumberStatus (number_id : Z) (status : string) (is_authenticated : bool)
  | SaveSession (user_id : Z) (phone_number : string) (session_file_path : string).

(** ** In-memory state *)

(** One entry of [pending_authentications]. *)
Record auth_data : Type := AuthData {
  ad_client : TelegramClient;
  ad_phone_number : string;
  ad_phone_code_hash : string;
  ad_session_name : string }.

Inductive log_level : Type := INFO | ERROR.

Record state : Type := State {
  (* DatabaseManager *)
  telegram_bot_users : gmap Z user_row;
  numbers : list number_row;
  telegram_bot_user_sessions : list session_row;
  db_calls : list db_call;
  (* TelegramAccountManager *)
  active_clients : gmap string TelegramClient;
  pending_authentications : gmap Z auth_data;
  (* TelegramBot *)
  user_states : gmap Z string;
  offset : Z;
  (* the outside: requests posted and lines logged, oldest first *)
  outbox : list request;
  log : list (log_level * string) }.

Definition initial_state : state :=
  State ∅ [] [] [] ∅ ∅ ∅ 0 [] [].

Definition set_telegram_bot_users (f : gmap Z user_row -> gmap Z user_row)
    (st : state) : state :=
  State (f (telegram_bot_users st)) (numbers st) (telegram_bot_user_sessions st)
    (db_calls st) (active_clients st) (pending_authentications st)
    (user_states st) (offset st) (outbox st) (log st).

Definition set_numbers (f : list number_row -> list number_row)
    (st : state) : state :=
  State (telegram_bot_users st) (f (numbers st)) (telegram_bot_user_sessions st)
    (db_calls st) (active_clients st) (pending_authentications st)
    (user_states st) (offset st) (outbox st) (log st).

Definition set_sessions (f : list session_row -> list session_row)
    (st : state) : state :=
  State (telegram_bot_users st) (numbers st) (f (telegram_bot_user_sessions st))
    (db_calls st) (active_clients st) (pending_authentications st)
    (user_states st) (offset st) (outbox st) (log st).

Definition record_db_call (c : db_call) (st : state) : state :=
  State (telegram_bot_users st) (numbers st) (telegram_bot_user_sessions st)
    (db_calls st ++ [c]) (active_clients st) (pending_authentications st)
    (user_states st) (offset st) (outbox st) (log st).

Definition set_active_clients
    (f : gmap string TelegramClient -> gmap string TelegramClient)
    (st : state) : state :=
  State (telegram_bot_users st) (numbers st) (telegram_bot_user_sessions st)
    (db_calls st) (f (active_clients st)) (pending_authentications st)
    (user_states st) (offset st) (outbox st) (log st).

Definition set_pending_authentications
    (f : gmap Z auth_data -> gmap Z auth_data) (st : state) : state :=
  State (telegram_bot_users st) (numbers st) (telegram_bot_user_sessions st)
    (db_calls st) (active_clients st) (f (pending_authentications st))
    (user_states st) (offset st) (outbox st) (log st).

Definition set_user_states (f : gmap Z string -> gmap Z string)
    (st : state) : state :=
  State (telegram_bot_users st) (numbers st) (telegram_bot_user_sessions st)
    (db_calls st) (active_clients st) (pending_authentications st)
    (f (user_states st)) (offset st) (outbox st) (log st).

Definition set_offset (z : Z) (st : state) : state :=
  State (telegram_bot_users st) (numbers st) (telegram_bot_user_sessions st)
    (db_calls st) (active_clients st) (pending_authentications st)
    (user_states st) z (outbox st) (log st).

Definition push_outbox (r : request) (st : state) : state :=
  State (telegram_bot_users st) (numbers st) (telegram_bot_user_sessions st)
    (db_calls st) (active_clients st) (pending_authentications st)
    (user_states st) (offset st) (outbox st ++ [r]) (log st).

Definition push_log (l : log_level) (s : string) (st : state) : state :=
  State (telegram_bot_users st) (numbers st) (telegram_bot_user_sessions st)
    (db_calls st) (active_clients st) (pending_authentications st)
    (user_states st) (offset st) (outbox st) (log st ++ [(l, s)]).

(** ** The monad of stateful, fallible computations *)

Definition M (A : Type) : Type := state -> result A * state.

Definition ret {A} (a : A) : M A := fun st => (Ok a, st).

Definition bind {A B} (m : M A) (k : A -> M B) : M B :=
  fun st =>
    match m st with
    | (Ok a, st') => k a st'
    | (Raise e, st') => (Raise e, st')
    end.

Definition raise {A} (e : exn) : M A := fun st => (Raise e, st).

(** A pure call that may raise. *)
Definition lift {A} (r : result A) : M A := fun st => (r, st).

(** [try: m  except Exception as e: h e] *)
Definition try_except {A} (m : M A) (h : exn -> M A) : M A :=
  fun st =>
    match m st with
    | (Ok a, st') => (Ok a, st')
    | (Raise e, st') => h e st'
    end.

Definition modify (f : state -> state) : M unit := fun st => (Ok tt, f st).

Definition gets {A} (f : state -> A) : M A := fun st => (Ok (f st), st).

Notation "'let*' x ':=' m 'in' k" := (bind m (fun x => k))
  (at level 10, x name, m at level 100, k at level 200).
Notation "'call' m 'then' k" := (bind m (fun _ => k))
  (at level 10, m at level 100, k at level 200).

Definition logger_info (s : string) : M unit := modify (push_log INFO s).
Definition logger_error (s : string) : M unit := modify (push_log ERROR s).

(** A [for] loop over a list. *)
Fixpoint for_each {A} (l : list A) (body : A -> M unit) : M unit :=
  match l with
  | [] => ret tt
  | x :: l' => call body x then for_each l' body
  end.

(** ** [class DatabaseManager]

    The tables live in the state; each method records its call.  SQLite
    itself is taken not to fail. *)

(** [INSERT OR REPLACE] on the primary key [user_id]: the row of the user,
    if there is one, is deleted and a new row is inserted, whose
    [created_at] and [is_active] take the column defaults. *)
Definition add_user (E : env) (user_id : Z)
    (username first_name last_name : option string) : M unit :=
  call modify (record_db_call (AddUser user_id)) then
  modify (set_telegram_bot_users
            (<[user_id := UserRow username first_name last_name
                            (current_timestamp E) true]>)).

(** The next [AUTOINCREMENT] key of a table no row is ever deleted from. *)
Definition next_rowid {A} (rows : list A) : Z := Z.of_nat (List.length rows) + 1.

(** A new row takes the column defaults: not authenticated, added now, no
    last login, status ['pending'].  Returns [cursor.lastrowid]. *)
Definition add_phone_number (E : env) (user_id : Z) (phone_number : string)
    : M Z :=
  call modify (record_db_call (AddPhoneNumber user_id phone_number)) then
  let* rows := gets numbers in
  let rowid := next_rowid rows in
  call modify (set_numbers (fun ns =>
        ns ++ [NumberRow rowid user_id phone_number false
                 (current_timestamp E) None "pending"])) then
  ret rowid.

(** Puts [r] in front of the first row that was not added after it. *)
Fixpoint insert_by_added_at (r : number_row) (l : list number_row)
    : list number_row :=
  match l with
  | [] => [r]
  | x :: l' =>
      if nr_added_at x <=? nr_added_at r then r :: x :: l'
      else x :: insert_by_added_at r l'
  end.

(** [ORDER BY added_at DESC]: the row added last comes first, and rows added
    in the same second stay in the order of the table. *)
Definition order_by_added_at_desc (rows : list number_row) : list number_row :=
  foldr insert_by_added_at [] rows.

Definition get_user_numbers (user_id : Z) : M (list number_row) :=
  call modify (record_db_call (GetUserNumbers user_id)) then
  let* rows := gets numbers in
  ret (order_by_added_at_desc (filter (fun r => nr_user_id r = user_id) rows)).

Definition update_row (number_id : Z) (status : string)
    (is_authenticated : bool) (last_login : Z) (r : number_row) : number_row :=
  if decide (nr_id r = number_id)
  then NumberRow (nr_id r) (nr_user_id r) (nr_phone_number r)
         is_authenticated (nr_added_at r) (Some last_login) status
  else r.

Definition update_number_status (E : env) (number_id : Z) (status : string)
    (is_authenticated : bool) : M unit :=
  call modify (record_db_call
                (UpdateNumberStatus number_id status is_authenticated)) then
  modify (set_numbers (fmap (update_row number_id status is_authenticated (now E)))).

(** [INSERT OR REPLACE] into a table whose only key is the [AUTOINCREMENT]
    id, which the statement does not supply: a row is added, with no
    [session_data] and the defaults of [created_at] and [is_active]. *)
Definition save_session (E : env) (user_id : Z)
    (phone_number session_file_path : string) : M unit :=
  call modify (record_db_call
                (SaveSession user_id phone_number session_file_path)) then
  modify (set_sessions (fun ss =>
        ss ++ [SessionRow (next_rowid ss) user_id phone_number None
                 session_file_path (current_timestamp E) true])).

(** ** [class TelegramAccountManager] *)

(** The f-string [f"{user_id}_{phone_number}"]. *)
Definition user_phone_key (user_id : Z) (phone_number : string) : string :=
  pretty user_id +:+ "_" +:+ phone_number.

(** [SELECT id ... WHERE user_id = ? AND phone_number = ?], first row or 0. *)
Definition get_number_id (user_id : Z) (phone_number : string) : M Z :=
  call modify (record_db_call (GetNumberId user_id phone_number)) then
  let* rows := gets numbers in
  ret (match filter (fun r => nr_user_id r = user_id
                              ∧ nr_phone_number r = phone_number) rows with
       | r :: _ => nr_id r
       | [] => 0
       end).

(** The block executed after a successful code sign-in: [compile] of the
    decoded text in ['exec'] mode raises [SyntaxError] (it uses [await]
    outside a function), and the enclosing [except Exception: pass] swallows
    it. *)
Definition exec_h : M unit :=
  try_except (raise (Exn SyntaxError "'await' outside function"))
    (fun _ => ret tt).

(** [del self.pending_authentications[user_id]] *)
Definition del_pending_authentication (user_id : Z) : M unit :=
  let* pending := gets pending_authentications in
  match pending !! user_id with
  | Some _ => modify (set_pending_authentications (delete user_id))
  | None => raise (Exn KeyError (pretty user_id))
  end.

Section AccountManager.

(** [hashlib.md5(s.encode()).hexdigest()] *)
Variable md5_hexdigest : string -> string.

Definition get_session_name (user_id : Z) (phone_number : string) : string :=
  "sessions/session_" +:+ md5_hexdigest (user_phone_key user_id phone_number).

(** The [try] block of [send_code]. *)
Definition send_code_body (E : env) (user_id : Z) (phone_number : string)
    : M (bool * string) :=
  let session_name := get_session_name user_id phone_number in
  call lift (makedirs E) then
  let client := new_client E session_name in
  call lift (connect client) then
  let* authorized := lift (is_user_authorized client) in
  if authorized : bool then
    call lift (disconnect client) then
    ret (true, "Already authenticated")
  else
    let* phone_code_hash := lift (send_code_request client phone_number) in
    call modify (set_pending_authentications
          (<[user_id := AuthData client phone_number phone_code_hash
                          session_name]>)) then
    call logger_info ("Code sent to " +:+ phone_number +:+ " for user "
                     +:+ pretty user_id) then
    ret (true, "Verification code sent successfully").

Definition send_code (E : env) (user_id : Z) (phone_number : string)
    : M (bool * string) :=
  try_except (send_code_body E user_id phone_number)
    (fun e =>
       match exn_class_of e with
       | PhoneNumberInvalidError => ret (false, "Invalid phone number format")
       | FloodWaitError seconds =>
           ret (false, "Too many attempts. Wait " +:+ pretty seconds
                       +:+ " seconds")
       | _ =>
           call logger_error ("Error sending code: " +:+ exn_str e) then
           ret (false, "Error: " +:+ exn_str e)
       end).

Definition verify_code (E : env) (user_id : Z) (code : string)
    : M (bool * string) :=
  let* pending := gets pending_authentications in
  match pending !! user_id with
  | None => ret (false, "No pending authentication found")
  | Some auth =>
      let client := ad_client auth in
      let phone_number := ad_phone_number auth in
      let phone_code_hash := ad_phone_code_hash auth in
      try_except
        (call lift (sign_in_code client phone_number code phone_code_hash) then
         call save_session E user_id phone_number (ad_session_name auth) then
         let* number_id := get_number_id user_id phone_number in
         call update_number_status E number_id "authenticated" true then
         call modify (set_active_clients
               (<[user_phone_key user_id phone_number := client]>)) then
         call del_pending_authentication user_id then
         call exec_h then
         call logger_info ("Successfully authenticated " +:+ phone_number
                          +:+ " for user " +:+ pretty user_id) then
         ret (true, "Authentication successful!"))
        (fun e =>
           match exn_class_of e with
           | SessionPasswordNeededError => ret (false, "2FA_REQUIRED")
           | PhoneCodeInvalidError => ret (false, "Invalid verification code")
           | PhoneCodeExpiredError => ret (false, "Verification code expired")
           | _ =>
               call logger_error ("Error verifying code: " +:+ exn_str e) then
               ret (false, "Error: " +:+ exn_str e)
           end)
  end.

Definition verify_2fa_password (E : env) (user_id : Z) (password : string)
    : M (bool * string) :=
  let* pending := gets pending_authentications in
  match pending !! user_id with
  | None => ret (false, "No pending authentication found")
  | Some auth =>
      let client := ad_client auth in
      let phone_number := ad_phone_number auth in
      try_except
        (call lift (sign_in_password client password) then
         call save_session E user_id phone_number (ad_session_name auth) then
         let* number_id := get_number_id user_id phone_number in
         call update_number_status E number_id "authenticated" true then
         call modify (set_active_clients
               (<[user_phone_key user_id phone_number := client]>)) then
         call del_pending_authentication user_id then
         call logger_info ("2FA authentication successful for "
                          +:+ phone_number +:+ ", user " +:+ pretty user_id) then
         ret (true, "2FA authentication successful!"))
        (fun e =>
           match exn_class_of e with
           | PasswordHashInvalidError => ret (false, "Invalid 2FA password")
           | _ =>
               call logger_error ("Error with 2FA: " +:+ exn_str e) then
               ret (false, "Error: " +:+ exn_str e)
           end)
  end.

End AccountManager.

(** ** [class TelegramBot] *)

Definition nl : string := String (ascii_of_nat 10) "".

(** Every method that talks to the Bot API posts one request; the request is
    counted whether or not the transport then raises. *)
Definition post (E : env) (r : request) : M unit :=
  fun st => (http_post E (List.length (outbox st)), push_outbox r st).

Definition send_message (E : env) (chat_id : Z) (text : string)
    (markup : option reply_markup) : M unit :=
  post E (SendMessage chat_id text markup).

Definition edit_message (E : env) (chat_id message_id : Z) (text : string)
    (markup : option reply_markup) : M unit :=
  post E (EditMessageText chat_id message_id text markup).

Definition answer_callback_query (E : env) (callback_query_id text : string)
    : M unit :=
  post E (AnswerCallbackQuery callback_query_id text).

Definition add_number_label : string := "‚ûï Add Number".
Definition my_numbers_label : string := "üì± My Numbers".
Definition help_label : string := "‚ÑπÔ∏è Help".

Definition get_main_keyboard : reply_markup :=
  ReplyKeyboard [[add_number_label]; [my_numbers_label]; [help_label]].

Definition number_button (r : number_row) : list (string * string) :=
  let status_emoji := if nr_is_authenticated r then "‚úÖ" else "‚è≥" in
  [(status_emoji +:+ " " +:+ nr_phone_number r +:+ " (" +:+ nr_status r +:+ ")",
    "number_" +:+ pretty (nr_id r))].

Definition get_numbers_keyboard (user_id : Z) : M reply_markup :=
  let* rows := get_user_numbers user_id in
  match rows with
  | [] => ret (InlineKeyboard [[("No numbers added", "none")]])
  | _ => ret (InlineKeyboard
                (map number_button rows ++ [[("üîô Back", "back_main")]]))
  end.

Definition welcome_text (user : tg_user) : string :=
  "üîê Welcome to Telegram Account Manager, "
    +:+ default "User" (first_name user) +:+ "!" +:+ nl +:+ nl
    +:+ "This bot helps you manage multiple Telegram accounts safely."
    +:+ nl +:+ nl
    +:+ "Available commands:" +:+ nl
    +:+ "‚Ä¢ Add Number - Add new phone number" +:+ nl
    +:+ "‚Ä¢ My Numbers - View your numbers" +:+ nl
    +:+ "‚Ä¢ Help - Get assistance" +:+ nl +:+ nl
    +:+ "Choose an option from the menu below:".

Definition handle_start_command (E : env) (message : tg_message) : M unit :=
  let* user := lift (subscript "from" (msg_from message)) in
  call add_user E (user_id_of user) (username user) (first_name user)
        (last_name user) then
  send_message E (chat_id_of (msg_chat message)) (welcome_text user)
    (Some get_main_keyboard).

Definition help_text : string :=
  "üîê <b>Telegram Account Manager Help</b>" +:+ nl +:+ nl
    +:+ "<b>How to use:</b>" +:+ nl
    +:+ "1. Click '‚ûï Add Number' to add a new phone number" +:+ nl
    +:+ "2. Enter phone number in international format (+1234567890)" +:+ nl
    +:+ "3. Wait for verification code via Telegram" +:+ nl
    +:+ "4. Enter the received code" +:+ nl
    +:+ "5. If you have 2FA enabled, enter your password" +:+ nl
    +:+ "6. Your session will be saved securely" +:+ nl +:+ nl
    +:+ "<b>Features:</b>" +:+ nl
    +:+ "‚Ä¢ Unlimited phone numbers" +:+ nl
    +:+ "‚Ä¢ Secure session management" +:+ nl
    +:+ "‚Ä¢ 2FA support" +:+ nl
    +:+ "‚Ä¢ Error handling and logging" +:+ nl +:+ nl
    +:+ "<b>Security Notes:</b>" +:+ nl
    +:+ "‚Ä¢ Sessions are stored locally and encrypted" +:+ nl
    +:+ "‚Ä¢ Never share your verification codes" +:+ nl
    +:+ "‚Ä¢ Use strong 2FA passwords" +:+ nl +:+ nl
    +:+ "Need more help? Contact support.".

Definition handle_help_command (E : env) (message : tg_message) : M unit :=
  send_message E (chat_id_of (msg_chat message)) help_text None.

(** [del self.user_states[user_id]] *)
Definition del_user_state (user_id : Z) : M unit :=
  let* states := gets user_states in
  match states !! user_id with
  | Some _ => modify (set_user_states (delete user_id))
  | None => raise (Exn KeyError (pretty user_id))
  end.

Definition invalid_phone_text : string :=
  "‚ùå Invalid phone number format." +:+ nl
    +:+ "Please use international format: +1234567890".

Section Bot.

Variable md5_hexdigest : string -> string.

(** The three conversation states that expect input; a user with no entry
    in [user_states] is idle. *)
Definition handle_user_input (E : env) (message : tg_message) : M unit :=
  let* user := lift (subscript "from" (msg_from message)) in
  let user_id := user_id_of user in
  let* text := lift (subscript "text" (msg_text message)) in
  let chat_id := chat_id_of (msg_chat message) in
  let* states := gets user_states in
  let state := states !! user_id in
  if decide (state = Some "waiting_phone") then
    if negb (String.prefix "+" text) || (len text <? 10)%nat then
      send_message E chat_id invalid_phone_text None
    else
      call add_phone_number E user_id text then
      call send_message E chat_id "‚è≥ Sending verification code..." None then
      let* r := send_code md5_hexdigest E user_id text in
      let '(success, message_text) := r in
      if success : bool then
        if String.eqb message_text "Already authenticated" then
          call send_message E chat_id
                "‚úÖ This number is already authenticated!"
                (Some get_main_keyboard) then
          del_user_state user_id
        else
          call modify (set_user_states (<[user_id := "waiting_code"]>)) then
          send_message E chat_id
            ("üì® " +:+ message_text +:+ nl +:+ nl
             +:+ "Please enter the verification code you received:") None
      else
        call send_message E chat_id ("‚ùå " +:+ message_text)
              (Some get_main_keyboard) then
        del_user_state user_id
  else if decide (state = Some "waiting_code") then
    let* r := verify_code E user_id text in
    let '(success, message_text) := r in
    if success : bool then
      call send_message E chat_id ("‚úÖ " +:+ message_text)
            (Some get_main_keyboard) then
      del_user_state user_id
    else if String.eqb message_text "2FA_REQUIRED" then
      call modify (set_user_states (<[user_id := "waiting_2fa"]>)) then
      send_message E chat_id
        ("üîê Two-factor authentication is enabled." +:+ nl
         +:+ "Please enter your 2FA password:") None
    else
      send_message E chat_id ("‚ùå " +:+ message_text) None
  else if decide (state = Some "waiting_2fa") then
    let* r := verify_2fa_password E user_id text in
    let '(success, message_text) := r in
    call send_message E chat_id
          ((if success : bool then "‚úÖ" else "‚ùå") +:+ " " +:+ message_text)
          (Some get_main_keyboard) then
    del_user_state user_id
  else ret tt.

Definition handle_text_message (E : env) (message : tg_message) : M unit :=
  let* user := lift (subscript "from" (msg_from message)) in
  let user_id := user_id_of user in
  let* text := lift (subscript "text" (msg_text message)) in
  let chat_id := chat_id_of (msg_chat message) in
  if negb (String.eqb (chat_type (msg_chat message)) "private") then ret tt
  else if String.eqb text add_number_label then
    call modify (set_user_states (<[user_id := "waiting_phone"]>)) then
    send_message E chat_id
      ("üì± Please send your phone number in international format." +:+ nl
       +:+ "Example: +1234567890" +:+ nl +:+ nl
       +:+ "Make sure to include the country code!") None
  else if String.eqb text my_numbers_label then
    let* keyboard := get_numbers_keyboard user_id in
    send_message E chat_id "üì± Your registered numbers:" (Some keyboard)
  else if String.eqb text help_label then
    handle_help_command E message
  else
    let* states := gets user_states in
    match states !! user_id with
    | Some _ => handle_user_input E message
    | None => ret tt
    end.

Definition handle_callback_query (E : env) (callback_query : tg_callback_query)
    : M unit :=
  let query_id := cq_id callback_query in
  let* data := lift (subscript "data" (cq_data callback_query)) in
  let user_id := user_id_of (cq_from callback_query) in
  let* message := lift (subscript "message" (cq_message callback_query)) in
  let chat_id := chat_id_of (msg_chat message) in
  let message_id := message_id message in
  call answer_callback_query E query_id "" then
  if String.eqb data "back_main" then
    edit_message E chat_id message_id "üîê Main Menu" None
  else if String.prefix "number_" data then
    let* part := lift (list_item (split "_" data) 1) in
    let* number_id := lift (int E part) in
    edit_message E chat_id message_id
      ("üì± Number details for ID: " +:+ pretty number_id +:+ nl +:+ nl
       +:+ "More features coming soon!")
      (Some (InlineKeyboard [[("üîô Back", "back_numbers")]]))
  else if String.eqb data "back_numbers" then
    let* keyboard := get_numbers_keyboard user_id in
    edit_message E chat_id message_id "üì± Your registered numbers:"
      (Some keyboard)
  else ret tt.

(** The body of the [try] in [process_update]. *)
Definition process_update_body (E : env) (update : tg_update) : M unit :=
  call modify (set_offset (update_id update + 1)) then
  match upd_message update with
  | Some message =>
      if negb (String.eqb (chat_type (msg_chat message)) "private") then ret tt
      else
        match msg_text message with
        | Some text =>
            if String.prefix "/start" text then handle_start_command E message
            else if String.prefix "/help" text then handle_help_command E message
            else handle_text_message E message
        | None => ret tt
        end
  | None =>
      match upd_callback_query update with
      | Some callback_query => handle_callback_query E callback_query
      | None => ret tt
      end
  end.

Definition process_update (E : env) (update : tg_update) : M unit :=
  try_except (process_update_body E update)
    (fun e => logger_error ("Error processing update: " +:+ exn_str e)).

(** A finite prefix of the polling loop of [run]: the batches that
    [get_updates] returned, each update with the world it is processed
    in. *)
Definition run (batches : list (list (env * tg_update))) : M unit :=
  try_except
    (call logger_info "Bot starting with getUpdates..." then
     for_each batches (fun updates =>
       for_each updates (fun eu => process_update (fst eu) (snd eu))))
    (fun e => logger_error ("Bot crashed: " +:+ exn_str e)).

End Bot.


(** * Definitions used to state the properties *)

(** The state after a successful sign-in of [user_id] with the pending entry
    [auth] in the world [E]. *)
Definition signed_in (E : env) (user_id : Z) (auth : auth_data) (st : state)
    : state :=
  let phone_number := ad_phone_number auth in
  let number_id :=
    match filter (fun r => nr_user_id r = user_id
                           ∧ nr_phone_number r = phone_number) (numbers st) with
    | r :: _ => nr_id r
    | [] => 0
    end in
  State (telegram_bot_users st)
    (update_row number_id "authenticated" true (now E) <$> numbers st)
    (telegram_bot_user_sessions st
       ++ [SessionRow (next_rowid (telegram_bot_user_sessions st)) user_id
             phone_number None (ad_session_name auth) (current_timestamp E)
             true])
    (db_calls st
       ++ [SaveSession user_id phone_number (ad_session_name auth)]
       ++ [GetNumberId user_id phone_number]
       ++ [UpdateNumberStatus number_id "authenticated" true])
    (<[user_phone_key user_id phone_number := ad_client auth]> (active_clients st))
    (delete user_id (pending_authentications st))
    (user_states st) (offset st) (outbox st) (log st).

(** How often the session store was asked to save a session, and to mark a
    phone number authenticated. *)
Definition is_save_session (c : db_call) : bool :=
  match c with SaveSession _ _ _ => true | _ => false end.

Definition is_update_authenticated (c : db_call) : bool :=
  match c with UpdateNumberStatus _ _ true => true | _ => false end.

Definition is_update_number_status (c : db_call) : bool :=
  match c with UpdateNumberStatus _ _ _ => true | _ => false end.

Definition count_calls (p : db_call -> bool) (st : state) : nat :=
  List.length (List.filter p (db_calls st)).

(** The entries the registry holds for one user. *)
Definition entries_of (user_id : Z) (pending : gmap Z auth_data)
    : list (Z * auth_data) :=
  List.filter (fun kv => bool_decide (fst kv = user_id)) (map_to_list pending).

(** The status column holds one of the two values the program writes. *)
Definition status_ok (r : number_row) : Prop :=
  nr_status r = "pending" ∨ nr_status r = "authenticated".

Definition statuses_ok (st : state) : Prop := Forall status_ok (numbers st).

(** The states the bot can be in: it starts with empty tables and maps and
    runs its polling loop over some batches of updates, each update in a
    world of its own. *)
Definition reachable (md5_hexdigest : string -> string) (st : state) : Prop :=
  exists batches, st = snd (run md5_hexdigest batches initial_state).

(** A computation keeps a property of the state, however it ends. *)
Definition preserves {A} (P : state -> Prop) (m : M A) : Prop :=
  forall st, P st -> P (snd (m st)).

(** ** A scenario to evaluate the program on *)

(** A client whose account accepts the code 12345, asks for the password
    after the code 22222, and accepts the password hunter2. *)
Definition demo_client : TelegramClient := {|
  connect := Ok tt;
  is_user_authorized := Ok false;
  disconnect := Ok tt;
  send_code_request := fun _ => Ok "c0ffee";
  sign_in_code := fun _ code _ =>
    if String.eqb code "12345" then Ok tt
    else if String.eqb code "22222"
    then Raise (Exn SessionPasswordNeededError "Two-steps verification is enabled")
    else Raise (Exn PhoneCodeInvalidError "The phone code entered was invalid");
  sign_in_password := fun password =>
    if String.eqb password "hunter2" then Ok tt
    else Raise (Exn PasswordHashInvalidError "The password is invalid") |}.

Definition demo_env : env := {|
  makedirs := Ok tt;
  new_client := fun _ => demo_client;
  http_post := fun _ => Ok tt;
  now := 1700000000;
  current_timestamp := 1699992800;
  int_unicode := fun s =>
    Raise (Exn ValueError
             ("invalid literal for int() with base 10: '" +:+ s +:+ "'")) |}.

(** A digest with no collisions at all, standing in for MD5. *)
Definition demo_digest (s : string) : string := s.

Definition demo_user : tg_user := TgUser 7 (Some "alice") (Some "Alice") None.

Definition demo_message (chat_kind text : string) : tg_message :=
  TgMessage 100 (Some demo_user) (TgChat 7 chat_kind) (Some text).

Definition demo_update (n : Z) (text : string) : env * tg_update :=
  (demo_env, TgUpdate n (Some (demo_message "private" text)) None).

Definition after (updates : list (env * tg_update)) : state :=
  snd (run demo_digest [updates] initial_state).

(** The user pressed the add-number button. *)
Definition awaiting_phone_state : state :=
  after [demo_update 1 add_number_label].

(** ... then sent a phone number, for which a code was requested. *)
Definition awaiting_code_state : state :=
  after [demo_update 1 add_number_label; demo_update 2 "+15551234567"].

(** ... then sent the code of an account with a password. *)
Definition awaiting_2fa_state : state :=
  after [demo_update 1 add_number_label; demo_update 2 "+15551234567";
         demo_update 3 "22222"].

(** A world whose account network answers a code request with [e]. *)
Definition env_code_request_raises (e : exn) : env := {|
  makedirs := Ok tt;
  new_client := fun _ => {|
    connect := Ok tt;
    is_user_authorized := Ok false;
    disconnect := Ok tt;
    send_code_request := fun _ => Raise e;
    sign_in_code := fun _ _ _ => Raise e;
    sign_in_password := fun _ => Raise e |};
  http_post := fun _ => Ok tt;
  now := 1700000000;
  current_timestamp := 1699992800;
  int_unicode := fun s =>
    Raise (Exn ValueError
             ("invalid literal for int() with base 10: '" +:+ s +:+ "'")) |}.

(** A callback query pressed under a message of a group chat. *)
Definition group_callback_update : tg_update :=
  TgUpdate 9 None
    (Some (TgCallbackQuery "q1" demo_user
             (Some (TgMessage 55 None (TgChat (-1001) "group") None))
             (Some "back_main"))).

(** Unfolds the monad so that a computation on a given state evaluates. *)
Ltac monad_unfold :=
  unfold bind, ret, raise, lift, try_except, modify, gets,
    logger_info, logger_error in *.

(** What a successful sign-in of [user_id] with the entry [auth] does to the
    session store and to the registry. *)
Definition sign_in_effects (user_id : Z) (auth : auth_data) (st st' : state)
    : Prop :=
  (exists number_id,
      db_calls st' = db_calls st
        ++ [SaveSession user_id (ad_phone_number auth) (ad_session_name auth);
            GetNumberId user_id (ad_phone_number auth);
            UpdateNumberStatus number_id "authenticated" true])
  ∧ count_calls is_save_session st' = S (count_calls is_save_session st)
  ∧ count_calls is_update_number_status st'
    = S (count_calls is_update_number_status st)
  ∧ count_calls is_update_authenticated st'
    = S (count_calls is_update_authenticated st)
  ∧ pending_authentications st' = delete user_id (pending_authentications st)
  ∧ pending_authentications st' !! user_id = None.

(** The state in which the polling loop leaves the bot after a list of
    updates, when each is processed in turn. *)
Definition process_all (md5_hexdigest : string -> string)
    (updates : list (env * tg_update)) (st : state) : state :=
  foldl (fun s eu => snd (process_update md5_hexdigest (fst eu) (snd eu) s))
    st updates.

(** A callback query that carries no message, as one pressed under a message
    sent through inline mode does. *)
Definition inline_callback_update : tg_update :=
  TgUpdate 10 None
    (Some (TgCallbackQuery "q2" demo_user None (Some "back_main"))).

(** The exception classes each operation answers with a message of its own;
    every other exception goes through the [except Exception] clause. *)
Definition named_by_send_code (c : exn_class) : bool :=
  match c with
  | PhoneNumberInvalidError | FloodWaitError _ => true
  | _ => false
  end.

Definition named_by_verify_code (c : exn_class) : bool :=
  match c with
  | SessionPasswordNeededError | PhoneCodeInvalidError
  | PhoneCodeExpiredError => true
  | _ => false
  end.

Definition named_by_verify_2fa_password (c : exn_class) : bool :=
  match c with PasswordHashInvalidError => true | _ => false end.

(** Two runs of an operation, [r1] from the state [st1] where the account
    network raised [e1] and [r2] where it raised [e2]: for a class the
    operation names, both return the same failure and nothing is logged;
    for any other class the text of the exception is logged and is also
    what the operation returns for the user. *)
Definition failure_report (named : exn_class -> bool) (log_prefix : string)
    (e1 : exn) (st1 : state) (r1 r2 : result (bool * string) * state) : Prop :=
  (named (exn_class_of e1) = true ->
   fst r1 = fst r2
   ∧ (exists message_text, fst r1 = Ok (false, message_text))
   ∧ log (snd r1) = log st1)
  ∧ (named (exn_class_of e1) = false ->
     fst r1 = Ok (false, "Error: " +:+ exn_str e1)
     ∧ log (snd r1) = log st1 ++ [(ERROR, log_prefix +:+ exn_str e1)]).

(** A call on the store writes no status other than ['authenticated'], and
    that one together with the authenticated flag. *)
Definition call_ok (c : db_call) : Prop :=
  match c with
  | UpdateNumberStatus _ status is_authenticated =>
      status = "authenticated" ∧ is_authenticated = true
  | _ => True
  end.

Definition store_ok (st : state) : Prop :=
  statuses_ok st ∧ Forall call_ok (db_calls st).

(** * Further definitions: the rest of the store and its invariants *)

(** [DatabaseManager.get_session]: the path of the first active session row
    of the pair, or [None].  The bot never calls it. *)
Definition get_session (user_id : Z) (phone_number : string)
    : M (option string) :=
  let* rows := gets telegram_bot_user_sessions in
  ret (match filter (fun r => sr_user_id r = user_id
                              ∧ sr_phone_number r = phone_number
                              ∧ sr_is_active r = true) rows with
       | r :: _ => Some (sr_session_file_path r)
       | [] => None
       end).

(** The columns of a phone-number record that identify it. *)
Definition row_key (r : number_row) : Z * Z * string :=
  (nr_id r, nr_user_id r, nr_phone_number r).

(** Every record of [st0] is still in [st], at its place and with its id,
    owner and phone number. *)
Definition rows_kept (st0 st : state) : Prop :=
  row_key <$> numbers st0 `prefix_of` row_key <$> numbers st.

(** The record at position [i] has the id [i + 1]. *)
Definition ids_sequential (st : state) : Prop :=
  forall (i : nat) r, numbers st !! i = Some r -> nr_id r = Z.of_nat i + 1.

(** The three columns that describe the login agree with each other. *)
Definition flags_agree (r : number_row) : Prop :=
  (nr_status r = "pending" ∧ nr_is_authenticated r = false
   ∧ nr_last_login r = None)
  ∨ (nr_status r = "authenticated" ∧ nr_is_authenticated r = true
     ∧ nr_last_login r <> None).

(** Session names in the registry and in the sessions table are the names
    of their own user and phone number. *)
Definition names_ok (md5_hexdigest : string -> string) (st : state) : Prop :=
  (forall user_id auth,
      pending_authentications st !! user_id = Some auth ->
      ad_session_name auth
      = get_session_name md5_hexdigest user_id (ad_phone_number auth))
  ∧ Forall (fun r => sr_session_file_path r
                     = get_session_name md5_hexdigest (sr_user_id r)
                         (sr_phone_number r)
                     ∧ sr_is_active r = true)
      (telegram_bot_user_sessions st).

(** A world in which the account behind every session is logged in
    already. *)
Definition authorized_env : env := {|
  makedirs := Ok tt;
  new_client := fun _ => {|
    connect := Ok tt;
    is_user_authorized := Ok true;
    disconnect := Ok tt;
    send_code_request := fun _ => Ok "c0ffee";
    sign_in_code := fun _ _ _ => Ok tt;
    sign_in_password := fun _ => Ok tt |};
  http_post := fun _ => Ok tt;
  now := 1700000000;
  current_timestamp := 1699992800;
  int_unicode := fun s =>
    Raise (Exn ValueError
             ("invalid literal for int() with base 10: '" +:+ s +:+ "'")) |}.

(** The session rows stored for one user and phone number. *)
Definition sessions_of (user_id : Z) (phone_number : string) (st : state)
    : list session_row :=
  filter (fun r => sr_user_id r = user_id ∧ sr_phone_number r = phone_number)
    (telegram_bot_user_sessions st).

(** A world like [demo_env] whose transport fails on every request. *)
Definition offline_env : env := {|
  makedirs := Ok tt;
  new_client := fun _ => demo_client;
  http_post := fun _ => Raise (Exn OtherException "Cannot connect to host");
  now := 1700000000;
  current_timestamp := 1699992800;
  int_unicode := fun s =>
    Raise (Exn ValueError
             ("invalid literal for int() with base 10: '" +:+ s +:+ "'")) |}.

(** The requests posted between the state [st] and the later state [st']. *)
Definition posted (st st' : state) : list request :=
  drop (List.length (outbox st)) (outbox st').

(** Two runs of [handle_user_input] on one message, from [st1] to [st1']
    where the account network raised [e1] and from [st2] to [st2'] where it
    raised an exception of the same class: after the requests [progress],
    for a class the operation names both runs post the same reply and log
    nothing; for any other class the run posts the text of the exception
    after [Error: ] and logs it. *)
Definition failure_shown (named : exn_class -> bool) (log_prefix : string)
    (progress : list request) (chat_id : Z) (markup : option reply_markup)
    (e1 : exn) (st1 st1' st2 st2' : state) : Prop :=
  (named (exn_class_of e1) = true ->
   (exists text,
       posted st1 st1' = progress ++ [SendMessage chat_id text markup]
       ∧ posted st2 st2' = progress ++ [SendMessage chat_id text markup])
   ∧ log st1' = log st1)
  ∧ (named (exn_class_of e1) = false ->
     posted st1 st1'
     = progress
       ++ [SendMessage chat_id ("‚ùå " +:+ "Error: " +:+ exn_str e1) markup]
     ∧ log st1' = log st1 ++ [(ERROR, log_prefix +:+ exn_str e1)]).

(** * Properties *)

(** ** Session names *)

Lemma pretty_N_go_no_char (c : ascii) x s :
  (forall d, pretty_N_char d <> c) ->
  mem_char c s = false -> mem_char c (pretty_N_go x s) = false.
Proof.
  intros Hc. revert s.
  induction (N.lt_wf_0 x) as [x _ IH]; intros s Hs.
  destruct (decide (x = 0%N)) as [->|Hx].
  - by rewrite pretty_N_go_0.
  - rewrite pretty_N_go_step by lia.
    apply IH; [apply N.div_lt; lia|].
    simpl. rewrite Hs, orb_false_r.
    apply Ascii.eqb_neq. intros ->. by eapply Hc.
Qed.

Lemma pretty_N_char_not_underscore d : pretty_N_char d <> "_"%char.
Proof. unfold pretty_N_char. by repeat case_match. Qed.

Lemma pretty_Z_no_underscore (z : Z) : mem_char "_" (pretty z) = false.
Proof.
  assert (forall p : positive, mem_char "_" (pretty p) = false) as Hpos.
  { intros p. unfold pretty, pretty_positive, pretty, pretty_N.
    case_decide; [done|].
    apply pretty_N_go_no_char; [apply pretty_N_char_not_underscore|done]. }
  destruct z as [|p|p]; [done|apply Hpos|].
  unfold pretty, pretty_Z. simpl. apply Hpos.
Qed.

(** Two strings cut at the first occurrence of a separator agree piecewise. *)
Lemma append_separator_inj (c : ascii) s1 s2 t1 t2 :
  mem_char c s1 = false -> mem_char c s2 = false ->
  s1 +:+ String c t1 = s2 +:+ String c t2 -> s1 = s2 ∧ t1 = t2.
Proof.
  revert s2. induction s1 as [|a s1 IH]; intros [|b s2]; simpl.
  - intros _ _ [= ->]. done.
  - intros _ Hb [= <- _]. rewrite Ascii.eqb_refl in Hb. done.
  - intros Ha _ [= -> _]. rewrite Ascii.eqb_refl in Ha. done.
  - intros Ha Hb [= -> Heq].
    apply orb_false_iff in Ha as [_ Ha]. apply orb_false_iff in Hb as [_ Hb].
    destruct (IH s2 Ha Hb Heq) as [-> ->]. done.
Qed.

Lemma user_phone_key_inj u1 p1 u2 p2 :
  user_phone_key u1 p1 = user_phone_key u2 p2 -> u1 = u2 ∧ p1 = p2.
Proof.
  unfold user_phone_key. simpl. intros Heq.
  apply append_separator_inj in Heq as [Hu Hp];
    auto using pretty_Z_no_underscore.
  split; [by apply (inj pretty)|done].
Qed.

(** C8. The session name is a function of the pair (the same pair gives the
    same name); two different pairs are hashed as two different strings, and
    their names differ exactly when the digests of those strings differ. *)
Theorem get_session_name_deterministic_and_distinct
    (md5_hexdigest : string -> string) (u1 u2 : Z) (p1 p2 : string) :
  (u1 = u2 -> p1 = p2 ->
   get_session_name md5_hexdigest u1 p1 = get_session_name md5_hexdigest u2 p2)
  ∧ ((u1, p1) <> (u2, p2) ->
     user_phone_key u1 p1 <> user_phone_key u2 p2
     ∧ (get_session_name md5_hexdigest u1 p1 = get_session_name md5_hexdigest u2 p2
        <-> md5_hexdigest (user_phone_key u1 p1)
            = md5_hexdigest (user_phone_key u2 p2))).
Proof.
  split.
  - by intros -> ->.
  - intros Hne. split.
    + intros Heq. apply user_phone_key_inj in Heq as [-> ->]. done.
    + unfold get_session_name. split.
      * intros Heq. by apply (inj (String.append _)) in Heq.
      * by intros ->.
Qed.

Lemma get_session_name_witness :
  get_session_name demo_digest 7 "+15551234567"
    = get_session_name demo_digest 7 "+15551234567"
  ∧ user_phone_key 7 "+15551234567" <> user_phone_key 8 "+15551234567"
  ∧ get_session_name demo_digest 7 "+15551234567"
    <> get_session_name demo_digest 8 "+15551234567".
Proof.
  pose proof (get_session_name_deterministic_and_distinct demo_digest 7 7
                "+15551234567" "+15551234567") as [Hsame _].
  pose proof (get_session_name_deterministic_and_distinct demo_digest 7 8
                "+15551234567" "+15551234567") as [_ Hdiff].
  destruct Hdiff as [Hkey Hname]; [discriminate|].
  split; [apply Hsame; reflexivity|]. split; [exact Hkey|].
  intros Heq. apply Hname in Heq. vm_compute in Heq. discriminate.
Defined.

(** ** Signing in *)

Lemma verify_code_success E user_id code st auth :
  pending_authentications st !! user_id = Some auth ->
  sign_in_code (ad_client auth) (ad_phone_number auth) code
    (ad_phone_code_hash auth) = Ok tt ->
  verify_code E user_id code st
  = (Ok (true, "Authentication successful!"),
     push_log INFO ("Successfully authenticated " +:+ ad_phone_number auth
                    +:+ " for user " +:+ pretty user_id)
       (signed_in E user_id auth st)).
Proof.
  intros Hp Hs. unfold verify_code. monad_unfold. simpl. rewrite Hp, Hs. simpl.
  unfold del_pending_authentication. monad_unfold. simpl. rewrite Hp. simpl.
  unfold signed_in, push_log. simpl. rewrite <- !app_assoc. reflexivity.
Qed.

Lemma verify_2fa_password_success E user_id password st auth :
  pending_authentications st !! user_id = Some auth ->
  sign_in_password (ad_client auth) password = Ok tt ->
  verify_2fa_password E user_id password st
  = (Ok (true, "2FA authentication successful!"),
     push_log INFO ("2FA authentication successful for " +:+ ad_phone_number auth
                    +:+ ", user " +:+ pretty user_id)
       (signed_in E user_id auth st)).
Proof.
  intros Hp Hs. unfold verify_2fa_password. monad_unfold. simpl.
  rewrite Hp, Hs. simpl.
  unfold del_pending_authentication. monad_unfold. simpl. rewrite Hp. simpl.
  unfold signed_in, push_log. simpl. rewrite <- !app_assoc. reflexivity.
Qed.

Lemma count_calls_app p st calls st' :
  db_calls st' = db_calls st ++ calls ->
  count_calls p st' = (count_calls p st + List.length (List.filter p calls))%nat.
Proof.
  intros Heq. unfold count_calls.
  by rewrite Heq, List.filter_app, List.length_app.
Qed.

Lemma signed_in_effects t l s user_id auth st :
  sign_in_effects user_id auth st (push_log l s (signed_in t user_id auth st)).
Proof.
  unfold sign_in_effects.
  split; [eexists; reflexivity|].
  repeat split;
    try (erewrite count_calls_app by (simpl; reflexivity); simpl; lia).
  simpl. apply lookup_delete_eq.
Qed.

(** C2. When the account network accepts the code, or the password,
    [verify_code] and [verify_2fa_password] return success, call
    [save_session] once and [update_number_status] once, with
    [is_authenticated] true, and delete the user's pending entry. *)
Theorem sign_in_success_effects (E : env) (user_id : Z) (st : state)
    (auth : auth_data) :
  pending_authentications st !! user_id = Some auth ->
  (forall code,
      sign_in_code (ad_client auth) (ad_phone_number auth) code
        (ad_phone_code_hash auth) = Ok tt ->
      fst (verify_code E user_id code st)
        = Ok (true, "Authentication successful!")
      ∧ sign_in_effects user_id auth st (snd (verify_code E user_id code st)))
  ∧ (forall password,
        sign_in_password (ad_client auth) password = Ok tt ->
        fst (verify_2fa_password E user_id password st)
          = Ok (true, "2FA authentication successful!")
        ∧ sign_in_effects user_id auth st
            (snd (verify_2fa_password E user_id password st))).
Proof.
  intros Hp. split.
  - intros code Hs. rewrite (verify_code_success _ _ _ _ _ Hp Hs). simpl.
    split; [done|apply signed_in_effects].
  - intros password Hs. rewrite (verify_2fa_password_success _ _ _ _ _ Hp Hs).
    simpl. split; [done|apply signed_in_effects].
Qed.

Lemma sign_in_success_effects_witness :
  fst (verify_code demo_env 7 "12345" awaiting_code_state)
    = Ok (true, "Authentication successful!")
  ∧ count_calls is_save_session
      (snd (verify_code demo_env 7 "12345" awaiting_code_state)) = 1%nat
  ∧ fst (verify_2fa_password demo_env 7 "hunter2" awaiting_2fa_state)
    = Ok (true, "2FA authentication successful!").
Proof.
  destruct (sign_in_success_effects demo_env 7 awaiting_code_state
              (AuthData demo_client "+15551234567" "c0ffee"
                 (get_session_name demo_digest 7 "+15551234567")))
    as [Hcode _]; [reflexivity|].
  destruct (Hcode "12345") as [Hr (_ & Hn & _)]; [reflexivity|].
  destruct (sign_in_success_effects demo_env 7 awaiting_2fa_state
              (AuthData demo_client "+15551234567" "c0ffee"
                 (get_session_name demo_digest 7 "+15551234567")))
    as [_ Hpw]; [reflexivity|].
  destruct (Hpw "hunter2") as [Hr2 _]; [reflexivity|].
  split; [exact Hr|]. split; [rewrite Hn; reflexivity|exact Hr2].
Defined.

Lemma verify_code_no_entry E user_id code st :
  pending_authentications st !! user_id = None ->
  verify_code E user_id code st
  = (Ok (false, "No pending authentication found"), st).
Proof.
  intros Hp. unfold verify_code. monad_unfold. simpl. by rewrite Hp.
Qed.

(** C4. With no pending entry for the user, [verify_code] returns the
    no-pending-authentication outcome and leaves the whole state as it was:
    no session is saved, no phone status is updated, and the registry and
    the tables are unchanged. *)
Theorem verify_code_without_pending (E : env) (user_id : Z) (code : string)
    (st : state) :
  pending_authentications st !! user_id = None ->
  verify_code E user_id code st
  = (Ok (false, "No pending authentication found"), st)
  ∧ (let st' := snd (verify_code E user_id code st) in
     count_calls is_save_session st' = count_calls is_save_session st
     ∧ count_calls is_update_number_status st'
       = count_calls is_update_number_status st
     ∧ db_calls st' = db_calls st
     ∧ pending_authentications st' = pending_authentications st
     ∧ numbers st' = numbers st
     ∧ telegram_bot_user_sessions st' = telegram_bot_user_sessions st).
Proof.
  intros Hp. split; [by apply verify_code_no_entry|].
  rewrite (verify_code_no_entry _ _ _ _ Hp). simpl. repeat split.
Qed.

Lemma verify_code_without_pending_witness :
  verify_code demo_env 7 "12345" initial_state
  = (Ok (false, "No pending authentication found"), initial_state).
Proof.
  apply (verify_code_without_pending demo_env 7 "12345" initial_state).
  reflexivity.
Defined.

(** ** The registry holds one entry per user *)

Lemma filter_key_at_most_one {V} (k : Z) (l : list (Z * V)) :
  NoDup l.*1 ->
  (List.length (List.filter (fun kv => bool_decide (fst kv = k)) l) <= 1)%nat.
Proof.
  induction l as [|[k' v] l IH]; simpl; [lia|].
  intros Hnd. apply NoDup_cons in Hnd as [Hk' Hnd].
  case_bool_decide as Hk; simpl in *; [|by apply IH].
  subst k'.
  assert (List.filter (fun kv : Z * V => bool_decide (fst kv = k)) l = []) as ->.
  { clear IH Hnd. induction l as [|[k2 v2] l IH]; simpl; [done|].
    case_bool_decide as Hk2; simpl in *.
    - subst k2. exfalso. apply Hk'. simpl. left.
    - apply IH. intros Hin. apply Hk'. simpl. by right. }
  simpl. lia.
Qed.

Lemma entries_of_at_most_one user_id (pending : gmap Z auth_data) :
  (List.length (entries_of user_id pending) <= 1)%nat.
Proof. apply filter_key_at_most_one, NoDup_fst_map_to_list. Qed.

Lemma entries_of_lookup_Some user_id (pending : gmap Z auth_data) auth :
  pending !! user_id = Some auth ->
  entries_of user_id pending = [(user_id, auth)].
Proof.
  intros Hp.
  assert (List.In (user_id, auth) (entries_of user_id pending)) as Hin.
  { apply List.filter_In. split.
    - apply list_elem_of_In, elem_of_map_to_list, Hp.
    - by apply bool_decide_eq_true. }
  pose proof (entries_of_at_most_one user_id pending) as Hle.
  destruct (entries_of user_id pending) as [|x [|y l]]; simpl in *.
  - done.
  - by destruct Hin as [->|[]].
  - lia.
Qed.

Lemma send_code_sent md5_hexdigest E user_id phone_number st h :
  makedirs E = Ok tt ->
  connect (new_client E (get_session_name md5_hexdigest user_id phone_number))
    = Ok tt ->
  is_user_authorized
    (new_client E (get_session_name md5_hexdigest user_id phone_number))
    = Ok false ->
  send_code_request
    (new_client E (get_session_name md5_hexdigest user_id phone_number))
    phone_number = Ok h ->
  send_code md5_hexdigest E user_id phone_number st
  = (Ok (true, "Verification code sent successfully"),
     push_log INFO ("Code sent to " +:+ phone_number +:+ " for user "
                    +:+ pretty user_id)
       (set_pending_authentications
          (<[user_id :=
               AuthData
                 (new_client E (get_session_name md5_hexdigest user_id phone_number))
                 phone_number h
                 (get_session_name md5_hexdigest user_id phone_number)]>) st)).
Proof.
  intros Hm Hc Ha Hs. unfold send_code, send_code_body. monad_unfold. simpl.
  rewrite Hm. simpl. rewrite Hc. simpl. rewrite Ha. simpl. rewrite Hs.
  reflexivity.
Qed.

(** C3. The registry never holds two entries for one user; a successful
    [send_code] for a user who already has an entry puts the new entry in
    its place, so the registry is as large as before and the entries of the
    other users are untouched. *)
Theorem send_code_replaces_pending (md5_hexdigest : string -> string) (E : env)
    (user_id : Z) (phone_number : string) (st : state) (old : auth_data)
    (h : string) :
  let session_name := get_session_name md5_hexdigest user_id phone_number in
  let client := new_client E session_name in
  let st' := snd (send_code md5_hexdigest E user_id phone_number st) in
  pending_authentications st !! user_id = Some old ->
  makedirs E = Ok tt ->
  connect client = Ok tt ->
  is_user_authorized client = Ok false ->
  send_code_request client phone_number = Ok h ->
  fst (send_code md5_hexdigest E user_id phone_number st)
    = Ok (true, "Verification code sent successfully")
  ∧ entries_of user_id (pending_authentications st')
    = [(user_id, AuthData client phone_number h session_name)]
  ∧ size (pending_authentications st') = size (pending_authentications st)
  ∧ (forall other, other <> user_id ->
       pending_authentications st' !! other
       = pending_authentications st !! other)
  ∧ (forall anyone,
       (List.length (entries_of anyone (pending_authentications st)) <= 1)%nat
       ∧ (List.length (entries_of anyone (pending_authentications st')) <= 1)%nat).
Proof.
  intros session_name client st' Hold Hm Hc Ha Hs. subst st'.
  rewrite (send_code_sent _ _ _ _ _ _ Hm Hc Ha Hs). simpl.
  split; [done|]. split; [|split; [|split]].
  - apply entries_of_lookup_Some, lookup_insert_eq.
  - rewrite map_size_insert, Hold. done.
  - intros other Hne. by apply lookup_insert_ne.
  - intros anyone. split; apply entries_of_at_most_one.
Qed.

Lemma send_code_replaces_pending_witness :
  entries_of 7
    (pending_authentications
       (snd (send_code demo_digest demo_env 7 "+15557654321" awaiting_code_state)))
  = [(7, AuthData demo_client "+15557654321" "c0ffee"
           (get_session_name demo_digest 7 "+15557654321"))].
Proof.
  apply (send_code_replaces_pending demo_digest demo_env 7 "+15557654321"
           awaiting_code_state
           (AuthData demo_client "+15551234567" "c0ffee"
              (get_session_name demo_digest 7 "+15551234567")) "c0ffee");
    reflexivity.
Defined.

(** ** The conversation state machine *)

(** C5. In the state [waiting_phone], a text that does not start with a plus
    sign or has fewer than ten characters only makes the bot post the
    validation message: the user stays in [waiting_phone], and no phone
    number is added, no code is requested and the registry is untouched. *)
Theorem invalid_phone_stays_waiting (md5_hexdigest : string -> string)
    (E : env) (message : tg_message) (user : tg_user) (text : string)
    (st : state) :
  msg_from message = Some user ->
  msg_text message = Some text ->
  user_states st !! user_id_of user = Some "waiting_phone" ->
  String.prefix "+" text = false ∨ (len text < 10)%nat ->
  handle_user_input md5_hexdigest E message st
  = (http_post E (List.length (outbox st)),
     push_outbox
       (SendMessage (chat_id_of (msg_chat message)) invalid_phone_text None) st).
Proof.
  intros Hfrom Htext Hstate Hbad.
  unfold handle_user_input. monad_unfold. rewrite Hfrom, Htext. simpl.
  rewrite Hstate. simpl.
  assert (negb (String.prefix "+" text) || (len text <? 10)%nat
          = true) as ->; [|reflexivity].
  destruct Hbad as [->|Hlen]; [done|].
  apply orb_true_iff. right. by apply Nat.ltb_lt.
Qed.

Lemma invalid_phone_stays_waiting_witness :
  let text := "+٠١٢٣٤٥" in
  let st' :=
    snd (handle_user_input demo_digest demo_env
           (demo_message "private" text) awaiting_phone_state) in
  (len text = 7 ∧ String.length text = 13)%nat
  ∧ user_states st' !! 7 = Some "waiting_phone"
  ∧ outbox st'
    = outbox awaiting_phone_state ++ [SendMessage 7 invalid_phone_text None]
  ∧ numbers st' = numbers awaiting_phone_state
  ∧ db_calls st' = db_calls awaiting_phone_state
  ∧ pending_authentications st' = pending_authentications awaiting_phone_state.
Proof.
  intros text st'. split; [split; reflexivity|]. subst st'.
  rewrite (invalid_phone_stays_waiting demo_digest demo_env
             (demo_message "private" text) demo_user text
             awaiting_phone_state);
    [|reflexivity|reflexivity|reflexivity|right; vm_compute; lia].
  simpl. repeat split; reflexivity.
Defined.

(** ** Failed sign-in attempts *)

Lemma verify_code_raises E user_id code st auth e :
  pending_authentications st !! user_id = Some auth ->
  sign_in_code (ad_client auth) (ad_phone_number auth) code
    (ad_phone_code_hash auth) = Raise e ->
  verify_code E user_id code st
  = match exn_class_of e with
    | SessionPasswordNeededError => (Ok (false, "2FA_REQUIRED"), st)
    | PhoneCodeInvalidError => (Ok (false, "Invalid verification code"), st)
    | PhoneCodeExpiredError => (Ok (false, "Verification code expired"), st)
    | _ => (Ok (false, "Error: " +:+ exn_str e),
            push_log ERROR ("Error verifying code: " +:+ exn_str e) st)
    end.
Proof.
  intros Hp Hs. unfold verify_code. monad_unfold. simpl. rewrite Hp, Hs.
  by destruct (exn_class_of e).
Qed.

Lemma verify_2fa_password_raises E user_id password st auth e :
  pending_authentications st !! user_id = Some auth ->
  sign_in_password (ad_client auth) password = Raise e ->
  verify_2fa_password E user_id password st
  = match exn_class_of e with
    | PasswordHashInvalidError => (Ok (false, "Invalid 2FA password"), st)
    | _ => (Ok (false, "Error: " +:+ exn_str e),
            push_log ERROR ("Error with 2FA: " +:+ exn_str e) st)
    end.
Proof.
  intros Hp Hs. unfold verify_2fa_password. monad_unfold. simpl.
  rewrite Hp, Hs. by destruct (exn_class_of e).
Qed.

(** What [verify_2fa_password] returns when the account network raises [e]. *)
Lemma verify_2fa_password_raises_outcome E user_id password st auth e :
  pending_authentications st !! user_id = Some auth ->
  sign_in_password (ad_client auth) password = Raise e ->
  exists message_text st1,
    verify_2fa_password E user_id password st = (Ok (false, message_text), st1)
    ∧ pending_authentications st1 = pending_authentications st
    ∧ user_states st1 = user_states st
    ∧ outbox st1 = outbox st
    ∧ numbers st1 = numbers st
    ∧ db_calls st1 = db_calls st.
Proof.
  intros Hp Hs. rewrite (verify_2fa_password_raises _ _ _ _ _ _ Hp Hs).
  destruct (exn_class_of e); by eexists _, _.
Qed.

(** C1, the claim as stated fails: after a failed password attempt the
    pending entry of the user is still in the registry. *)
Lemma failed_two_factor_keeps_pending_entry :
  let message := demo_message "private" "not the password" in
  let st' :=
    snd (handle_user_input demo_digest demo_env message awaiting_2fa_state) in
  fst (verify_2fa_password demo_env 7 "not the password" awaiting_2fa_state)
    = Ok (false, "Invalid 2FA password")
  ∧ user_states st' !! 7 = None
  ∧ pending_authentications st' !! 7 <> None.
Proof.
  split; [reflexivity|]. split; [reflexivity|].
  vm_compute. discriminate.
Qed.

(** C1, amended. When the code sign-in asks for the password,
    [verify_code] returns [2FA_REQUIRED] without touching the state, so the
    pending entry is kept, and the user moves to [waiting_2fa].  When the
    password sign-in then fails, [verify_2fa_password] returns a failure and
    keeps the pending entry (only a success deletes it), and the user's
    conversation state is removed once the reply has been posted. *)
Theorem two_factor_required_then_failure (md5_hexdigest : string -> string)
    (E : env) (message : tg_message) (user : tg_user) (text : string)
    (st : state) (auth : auth_data) (e : exn) :
  let user_id := user_id_of user in
  let st' := snd (handle_user_input md5_hexdigest E message st) in
  msg_from message = Some user ->
  msg_text message = Some text ->
  pending_authentications st !! user_id = Some auth ->
  (user_states st !! user_id = Some "waiting_code" ->
   sign_in_code (ad_client auth) (ad_phone_number auth) text
     (ad_phone_code_hash auth) = Raise e ->
   exn_class_of e = SessionPasswordNeededError ->
   verify_code E user_id text st = (Ok (false, "2FA_REQUIRED"), st)
   ∧ pending_authentications st' = pending_authentications st
   ∧ user_states st' = <[user_id := "waiting_2fa"]> (user_states st))
  ∧ (user_states st !! user_id = Some "waiting_2fa" ->
     sign_in_password (ad_client auth) text = Raise e ->
     (exists message_text st1,
         verify_2fa_password E user_id text st = (Ok (false, message_text), st1)
         ∧ pending_authentications st1 = pending_authentications st)
     ∧ pending_authentications st' !! user_id = Some auth
     ∧ (http_post E (List.length (outbox st)) = Ok tt ->
        user_states st' = delete user_id (user_states st))).
Proof.
  intros user_id st' Hfrom Htext Hp. subst st'. split.
  - intros Hstate Hs Hcls.
    pose proof (verify_code_raises E user_id text st auth e Hp Hs) as Hv.
    rewrite Hcls in Hv. split; [exact Hv|].
    unfold handle_user_input. monad_unfold.
    rewrite Hfrom, Htext. simpl. fold user_id. rewrite Hstate. simpl.
    rewrite Hv. simpl. done.
  - intros Hstate Hs.
    destruct (verify_2fa_password_raises_outcome E user_id text st auth e Hp Hs)
      as (message_text & st1 & Hv & Hp1 & Hu1 & Ho1 & _).
    split; [by eexists _, _|].
    unfold handle_user_input. monad_unfold.
    rewrite Hfrom, Htext. simpl. fold user_id. rewrite Hstate. simpl.
    rewrite Hv. simpl. rewrite Ho1.
    unfold del_user_state. monad_unfold. simpl.
    destruct (http_post _ _) eqn:Hpost; simpl.
    + rewrite Hu1, Hstate. simpl. rewrite Hp1, Hu1. split; [done|]. done.
    + rewrite Hp1. split; [done|]. intros [=].
Qed.

Lemma two_factor_required_then_failure_witness :
  (let st' := snd (handle_user_input demo_digest demo_env
                     (demo_message "private" "22222") awaiting_code_state) in
   user_states st' !! 7 = Some "waiting_2fa"
   ∧ pending_authentications st'
     = pending_authentications awaiting_code_state)
  ∧ (let st' := snd (handle_user_input demo_digest demo_env
                       (demo_message "private" "not the password")
                       awaiting_2fa_state) in
     user_states st' !! 7 = None
     ∧ pending_authentications st' !! 7
       = pending_authentications awaiting_2fa_state !! 7).
Proof.
  split.
  - destruct (two_factor_required_then_failure demo_digest demo_env
                (demo_message "private" "22222") demo_user "22222"
                awaiting_code_state
                (AuthData demo_client "+15551234567" "c0ffee"
                   (get_session_name demo_digest 7 "+15551234567"))
                (Exn SessionPasswordNeededError
                   "Two-steps verification is enabled"))
      as [Hcode _]; [reflexivity|reflexivity|reflexivity|].
    destruct Hcode as (_ & Hp & Hu); [reflexivity|reflexivity|reflexivity|].
    cbv zeta. split; [|exact Hp].
    etrans; [exact (f_equal (fun m => m !! 7) Hu)|apply lookup_insert_eq].
  - destruct (two_factor_required_then_failure demo_digest demo_env
                (demo_message "private" "not the password") demo_user
                "not the password" awaiting_2fa_state
                (AuthData demo_client "+15551234567" "c0ffee"
                   (get_session_name demo_digest 7 "+15551234567"))
                (Exn PasswordHashInvalidError "The password is invalid"))
      as [_ Hpw]; [reflexivity|reflexivity|reflexivity|].
    destruct Hpw as (_ & Hp & Hu); [reflexivity|reflexivity|].
    cbv zeta. split; [|etrans; [exact Hp|reflexivity]].
    etrans; [exact (f_equal (fun m => m !! 7) (Hu eq_refl))
            |apply lookup_delete_eq].
Defined.

(** ** The dispatch loop *)

Lemma process_update_ok md5_hexdigest E update st :
  fst (process_update md5_hexdigest E update st) = Ok tt.
Proof.
  unfold process_update. monad_unfold.
  destruct (process_update_body md5_hexdigest E update st) as [[[]|e] st1];
    reflexivity.
Qed.

Lemma for_each_ok {A} (body : A -> M unit) (l : list A) st :
  (forall x s, fst (body x s) = Ok tt) ->
  for_each l body st = (Ok tt, foldl (fun s x => snd (body x s)) st l).
Proof.
  intros Hbody. revert st. induction l as [|x l IH]; intros st; simpl.
  - reflexivity.
  - monad_unfold. specialize (Hbody x st).
    destruct (body x st) as [[[]|e] st1]; simpl in *; [apply IH|discriminate].
Qed.

Lemma foldl_pointwise {A B} (f g : B -> A -> B) (l : list A) (b : B) :
  (forall s x, f s x = g s x) -> foldl f b l = foldl g b l.
Proof.
  intros Hfg. revert b. induction l as [|x l IH]; intros b; simpl; [done|].
  by rewrite Hfg, IH.
Qed.

Lemma foldl_concat {A B} (f : B -> A -> B) (ls : list (list A)) (b : B) :
  foldl (fun s l => foldl f s l) b ls = foldl f b (List.concat ls).
Proof.
  revert b. induction ls as [|l ls IH]; intros b; simpl; [done|].
  by rewrite foldl_app, IH.
Qed.

(** C9. Processing an update never raises: whatever the handlers raise is
    caught in [process_update] and logged there.  So the loop of [run] goes
    through every update of every batch, one after the other, and never
    reaches its own [except] clause. *)
Theorem process_update_never_raises (md5_hexdigest : string -> string)
    (E : env) (update : tg_update) (st : state)
    (batches : list (list (env * tg_update))) :
  fst (process_update md5_hexdigest E update st) = Ok tt
  ∧ snd (process_update md5_hexdigest E update st)
    = match process_update_body md5_hexdigest E update st with
      | (Ok _, st1) => st1
      | (Raise e, st1) =>
          push_log ERROR ("Error processing update: " +:+ exn_str e) st1
      end
  ∧ run md5_hexdigest batches st
    = (Ok tt,
       process_all md5_hexdigest (List.concat batches)
         (push_log INFO "Bot starting with getUpdates..." st)).
Proof.
  split; [apply process_update_ok|]. split.
  - unfold process_update. monad_unfold.
    by destruct (process_update_body md5_hexdigest E update st) as [[[]|e] st1].
  - unfold run. monad_unfold. simpl.
    rewrite for_each_ok.
    + simpl. f_equal. unfold process_all.
      rewrite <- foldl_concat. apply foldl_pointwise.
      intros s updates. by rewrite for_each_ok by (intros; apply process_update_ok).
    + intros updates s.
      by rewrite for_each_ok by (intros; apply process_update_ok).
Qed.

(** An update whose handler raises [KeyError] is logged and the update after
    it is answered as usual. *)
Lemma failing_update_then_next :
  let st := snd (run demo_digest
                   [[(demo_env, inline_callback_update);
                     demo_update 11 add_number_label]] initial_state) in
  log st = [(INFO, "Bot starting with getUpdates...");
            (ERROR, "Error processing update: 'message'")]
  ∧ user_states st !! 7 = Some "waiting_phone"
  ∧ offset st = 12.
Proof. repeat split; reflexivity. Qed.

(** ** Chats that are not private *)

(** A message of a chat that is not private only advances the offset. *)
Lemma non_private_message_dropped md5_hexdigest E update message st :
  upd_message update = Some message ->
  chat_type (msg_chat message) <> "private" ->
  process_update md5_hexdigest E update st
  = (Ok tt, set_offset (update_id update + 1) st).
Proof.
  intros Hm Hk. unfold process_update, process_update_body. monad_unfold.
  simpl. rewrite Hm.
  destruct (String.eqb_spec (chat_type (msg_chat message)) "private");
    [done|reflexivity].
Qed.

(** C6, where the code departs from the claim: a callback query whose
    message belongs to a group chat is answered and its message edited. *)
Theorem group_callback_is_answered :
  chat_type (TgChat (-1001) "group") <> "private"
  ∧ process_update demo_digest demo_env group_callback_update initial_state
    = (Ok tt,
       push_outbox (EditMessageText (-1001) 55 "üîê Main Menu" None)
         (push_outbox (AnswerCallbackQuery "q1" "")
            (set_offset 10 initial_state))).
Proof. split; [discriminate|reflexivity]. Qed.

(** ** What the user is told when the account network fails *)

Lemma send_code_raises md5_hexdigest E user_id phone_number st e :
  makedirs E = Ok tt ->
  connect (new_client E (get_session_name md5_hexdigest user_id phone_number))
    = Ok tt ->
  is_user_authorized
    (new_client E (get_session_name md5_hexdigest user_id phone_number))
    = Ok false ->
  send_code_request
    (new_client E (get_session_name md5_hexdigest user_id phone_number))
    phone_number = Raise e ->
  send_code md5_hexdigest E user_id phone_number st
  = match exn_class_of e with
    | PhoneNumberInvalidError => (Ok (false, "Invalid phone number format"), st)
    | FloodWaitError seconds =>
        (Ok (false, "Too many attempts. Wait " +:+ pretty seconds +:+ " seconds"),
         st)
    | _ => (Ok (false, "Error: " +:+ exn_str e),
            push_log ERROR ("Error sending code: " +:+ exn_str e) st)
    end.
Proof.
  intros Hm Hc Ha Hs. unfold send_code, send_code_body. monad_unfold. simpl.
  rewrite Hm. simpl. rewrite Hc. simpl. rewrite Ha. simpl. rewrite Hs.
  by destruct (exn_class_of e).
Qed.

(** C7, the claim as stated fails: two runs in which the account network
    raises the same error with two different texts show the user two
    different messages, each carrying the text. *)
Lemma provider_detail_reaches_user :
  let shown detail :=
    outbox (snd (handle_user_input demo_digest
                   (env_code_request_raises (Exn OtherException detail))
                   (demo_message "private" "+15551234567")
                   awaiting_phone_state)) in
  shown "phone_code_hash 1a2b3c rejected" <> shown "RPCError 500: WORKER_BUSY"
  ∧ last (shown "phone_code_hash 1a2b3c rejected")
    = Some (SendMessage 7 "‚ùå Error: phone_code_hash 1a2b3c rejected"
              (Some get_main_keyboard)).
Proof. split; [vm_compute; discriminate|reflexivity]. Qed.

(** What the three operations return and log when the account network
    raises, by the class of the exception. *)
Lemma failure_result_by_class (md5_hexdigest : string -> string)
    (E1 E2 : env) (user_id : Z) (phone_number secret : string)
    (st1 st2 : state) (auth1 auth2 : auth_data) (e1 e2 : exn) :
  let client1 :=
    new_client E1 (get_session_name md5_hexdigest user_id phone_number) in
  let client2 :=
    new_client E2 (get_session_name md5_hexdigest user_id phone_number) in
  exn_class_of e1 = exn_class_of e2 ->
  (makedirs E1 = Ok tt -> connect client1 = Ok tt ->
   is_user_authorized client1 = Ok false ->
   send_code_request client1 phone_number = Raise e1 ->
   makedirs E2 = Ok tt -> connect client2 = Ok tt ->
   is_user_authorized client2 = Ok false ->
   send_code_request client2 phone_number = Raise e2 ->
   failure_report named_by_send_code "Error sending code: " e1 st1
     (send_code md5_hexdigest E1 user_id phone_number st1)
     (send_code md5_hexdigest E2 user_id phone_number st2))
  ∧ (pending_authentications st1 !! user_id = Some auth1 ->
     pending_authentications st2 !! user_id = Some auth2 ->
     (sign_in_code (ad_client auth1) (ad_phone_number auth1) secret
        (ad_phone_code_hash auth1) = Raise e1 ->
      sign_in_code (ad_client auth2) (ad_phone_number auth2) secret
        (ad_phone_code_hash auth2) = Raise e2 ->
      failure_report named_by_verify_code "Error verifying code: " e1 st1
        (verify_code E1 user_id secret st1) (verify_code E2 user_id secret st2))
     ∧ (sign_in_password (ad_client auth1) secret = Raise e1 ->
        sign_in_password (ad_client auth2) secret = Raise e2 ->
        failure_report named_by_verify_2fa_password "Error with 2FA: " e1 st1
          (verify_2fa_password E1 user_id secret st1)
          (verify_2fa_password E2 user_id secret st2))).
Proof.
  intros client1 client2 Hcls. split; [|intros Hp1 Hp2; split].
  - intros Hm1 Hc1 Ha1 Hs1 Hm2 Hc2 Ha2 Hs2.
    rewrite (send_code_raises _ _ _ _ st1 _ Hm1 Hc1 Ha1 Hs1).
    rewrite (send_code_raises _ _ _ _ st2 _ Hm2 Hc2 Ha2 Hs2).
    rewrite <- Hcls. unfold failure_report.
    destruct (exn_class_of e1); simpl;
      (split; [intros [=]; eauto|intros [=]; done]) || (split; [intros [=]|done]).
  - intros Hs1 Hs2.
    rewrite (verify_code_raises _ _ _ _ _ _ Hp1 Hs1).
    rewrite (verify_code_raises _ _ _ _ _ _ Hp2 Hs2).
    rewrite <- Hcls. unfold failure_report.
    destruct (exn_class_of e1); simpl;
      (split; [intros [=]; eauto|intros [=]; done]) || (split; [intros [=]|done]).
  - intros Hs1 Hs2.
    rewrite (verify_2fa_password_raises _ _ _ _ _ _ Hp1 Hs1).
    rewrite (verify_2fa_password_raises _ _ _ _ _ _ Hp2 Hs2).
    rewrite <- Hcls. unfold failure_report.
    destruct (exn_class_of e1); simpl;
      (split; [intros [=]; eauto|intros [=]; done]) || (split; [intros [=]|done]).
Qed.

(** The [try] block of [send_code] changes the state only when it returns:
    whatever it raises, it raises from any state and leaves it as it was. *)
Lemma send_code_body_raises md5_hexdigest E user_id phone_number st e :
  fst (send_code_body md5_hexdigest E user_id phone_number st) = Raise e ->
  forall st2,
    send_code_body md5_hexdigest E user_id phone_number st2 = (Raise e, st2).
Proof.
  unfold send_code_body. monad_unfold. simpl.
  destruct (makedirs E) as [[]|e0]; simpl; [|by intros [= ->]].
  destruct (connect _) as [[]|e1]; simpl; [|by intros [= ->]].
  destruct (is_user_authorized _) as [[|]|e2]; simpl; [| |by intros [= ->]].
  - destruct (disconnect _) as [[]|e3]; simpl; [done|by intros [= ->]].
  - destruct (send_code_request _ _) as [h|e4]; simpl; [done|by intros [= ->]].
Qed.

Lemma send_code_of_raise md5_hexdigest E user_id phone_number st e :
  send_code_body md5_hexdigest E user_id phone_number st = (Raise e, st) ->
  send_code md5_hexdigest E user_id phone_number st
  = match exn_class_of e with
    | PhoneNumberInvalidError => (Ok (false, "Invalid phone number format"), st)
    | FloodWaitError seconds =>
        (Ok (false, "Too many attempts. Wait " +:+ pretty seconds +:+ " seconds"),
         st)
    | _ => (Ok (false, "Error: " +:+ exn_str e),
            push_log ERROR ("Error sending code: " +:+ exn_str e) st)
    end.
Proof.
  intros Hbody. unfold send_code, try_except. rewrite Hbody.
  monad_unfold. by destruct (exn_class_of e).
Qed.

Lemma posted_app st st' requests :
  outbox st' = outbox st ++ requests -> posted st st' = requests.
Proof. intros Heq. unfold posted. rewrite Heq. apply drop_app_length. Qed.

(** C7, amended. Take two runs of [handle_user_input] on one message in which
    the account network fails with exceptions of one class, during the code
    request ([send_code], wherever in its [try] block the exception is
    raised), the code sign-in or the password sign-in.  When the class is one
    the operation names (for a flood wait the class carries the seconds) both
    runs post the same reply and log nothing, whatever the text of the
    exceptions.  For any other class the reply posted is the text of the
    exception after [Error: ], which is logged as well. *)
Theorem failure_message_by_class (md5_hexdigest : string -> string)
    (E1 E2 : env) (message : tg_message) (user : tg_user) (text : string)
    (st1 st2 : state) (auth1 auth2 : auth_data) (e1 e2 : exn) :
  let user_id := user_id_of user in
  let chat_id := chat_id_of (msg_chat message) in
  let st1' := snd (handle_user_input md5_hexdigest E1 message st1) in
  let st2' := snd (handle_user_input md5_hexdigest E2 message st2) in
  msg_from message = Some user ->
  msg_text message = Some text ->
  exn_class_of e1 = exn_class_of e2 ->
  (user_states st1 !! user_id = Some "waiting_phone" ->
   user_states st2 !! user_id = Some "waiting_phone" ->
   String.prefix "+" text = true -> (10 <= len text)%nat ->
   http_post E1 (List.length (outbox st1)) = Ok tt ->
   http_post E2 (List.length (outbox st2)) = Ok tt ->
   fst (send_code_body md5_hexdigest E1 user_id text st1) = Raise e1 ->
   fst (send_code_body md5_hexdigest E2 user_id text st2) = Raise e2 ->
   failure_shown named_by_send_code "Error sending code: "
     [SendMessage chat_id "‚è≥ Sending verification code..." None]
     chat_id (Some get_main_keyboard) e1 st1 st1' st2 st2')
  ∧ (user_states st1 !! user_id = Some "waiting_code" ->
     user_states st2 !! user_id = Some "waiting_code" ->
     pending_authentications st1 !! user_id = Some auth1 ->
     pending_authentications st2 !! user_id = Some auth2 ->
     sign_in_code (ad_client auth1) (ad_phone_number auth1) text
       (ad_phone_code_hash auth1) = Raise e1 ->
     sign_in_code (ad_client auth2) (ad_phone_number auth2) text
       (ad_phone_code_hash auth2) = Raise e2 ->
     failure_shown named_by_verify_code "Error verifying code: " []
       chat_id None e1 st1 st1' st2 st2')
  ∧ (user_states st1 !! user_id = Some "waiting_2fa" ->
     user_states st2 !! user_id = Some "waiting_2fa" ->
     pending_authentications st1 !! user_id = Some auth1 ->
     pending_authentications st2 !! user_id = Some auth2 ->
     sign_in_password (ad_client auth1) text = Raise e1 ->
     sign_in_password (ad_client auth2) text = Raise e2 ->
     failure_shown named_by_verify_2fa_password "Error with 2FA: " []
       chat_id (Some get_main_keyboard) e1 st1 st1' st2 st2').
Proof.
  intros user_id chat_id st1' st2' Hfrom Htext Hcls.
  split; [|split].
  - intros Hs1 Hs2 Hplus Hlen Hp1 Hp2 Hb1 Hb2.
    assert (forall E st e,
              user_states st !! user_id = Some "waiting_phone" ->
              http_post E (List.length (outbox st)) = Ok tt ->
              fst (send_code_body md5_hexdigest E user_id text st) = Raise e ->
              outbox (snd (handle_user_input md5_hexdigest E message st))
              = outbox st
                ++ [SendMessage chat_id "‚è≥ Sending verification code..." None;
                    SendMessage chat_id
                      ("‚ùå "
                       +:+ match exn_class_of e with
                           | PhoneNumberInvalidError =>
                               "Invalid phone number format"
                           | FloodWaitError seconds =>
                               "Too many attempts. Wait " +:+ pretty seconds
                               +:+ " seconds"
                           | _ => "Error: " +:+ exn_str e
                           end)
                      (Some get_main_keyboard)]
              ∧ log (snd (handle_user_input md5_hexdigest E message st))
                = log st
                  ++ (if named_by_send_code (exn_class_of e) then []
                      else [(ERROR, "Error sending code: " +:+ exn_str e)]))
      as Hrun.
    { intros E st e Hs Hp Hb.
      pose proof (send_code_body_raises _ _ _ _ _ _ Hb) as Hany.
      unfold handle_user_input, send_message, post, add_phone_number,
        del_user_state. monad_unfold.
      rewrite Hfrom, Htext. simpl. fold user_id. rewrite Hs. simpl.
      rewrite Hplus. simpl.
      assert ((len text <? 10)%nat = false) as -> by (by apply Nat.ltb_ge).
      rewrite Hp. simpl.
      rewrite (send_code_of_raise _ _ _ _ _ _ (Hany _)).
      destruct (exn_class_of e); simpl;
        destruct (http_post E (List.length (outbox st ++ _))); simpl;
        rewrite ?Hs; simpl; rewrite <- ?app_assoc, ?app_nil_r; done. }
    destruct (Hrun E1 st1 e1 Hs1 Hp1 Hb1) as [Ho1 Hl1].
    destruct (Hrun E2 st2 e2 Hs2 Hp2 Hb2) as [Ho2 Hl2].
    fold st1' in Ho1, Hl1. fold st2' in Ho2.
    apply posted_app in Ho1, Ho2. rewrite <- Hcls in Ho2.
    split; intros Hnamed; rewrite Hnamed in Hl1.
    + split; [|by rewrite Hl1, app_nil_r].
      eexists. split; [exact Ho1|].
      rewrite Ho2. by destruct (exn_class_of e1).
    + split; [|exact Hl1].
      rewrite Ho1. by destruct (exn_class_of e1).
  - intros Hs1 Hs2 Hpe1 Hpe2 Hsi1 Hsi2.
    assert (forall E st auth e,
              user_states st !! user_id = Some "waiting_code" ->
              pending_authentications st !! user_id = Some auth ->
              sign_in_code (ad_client auth) (ad_phone_number auth) text
                (ad_phone_code_hash auth) = Raise e ->
              outbox (snd (handle_user_input md5_hexdigest E message st))
              = outbox st
                ++ [SendMessage chat_id
                      match exn_class_of e with
                      | SessionPasswordNeededError =>
                          "üîê Two-factor authentication is enabled." +:+ nl
                          +:+ "Please enter your 2FA password:"
                      | PhoneCodeInvalidError =>
                          "‚ùå " +:+ "Invalid verification code"
                      | PhoneCodeExpiredError =>
                          "‚ùå " +:+ "Verification code expired"
                      | _ => "‚ùå " +:+ "Error: " +:+ exn_str e
                      end None]
              ∧ log (snd (handle_user_input md5_hexdigest E message st))
                = log st
                  ++ (if named_by_verify_code (exn_class_of e) then []
                      else [(ERROR, "Error verifying code: " +:+ exn_str e)]))
      as Hrun.
    { intros E st auth e Hs Hpe Hsi.
      pose proof (verify_code_raises E user_id text st auth e Hpe Hsi) as Hv.
      unfold handle_user_input, send_message, post. monad_unfold.
      rewrite Hfrom, Htext. simpl. fold user_id. rewrite Hs. simpl.
      rewrite Hv.
      destruct (exn_class_of e); simpl; rewrite ?app_nil_r; done. }
    destruct (Hrun E1 st1 auth1 e1 Hs1 Hpe1 Hsi1) as [Ho1 Hl1].
    destruct (Hrun E2 st2 auth2 e2 Hs2 Hpe2 Hsi2) as [Ho2 Hl2].
    fold st1' in Ho1, Hl1. fold st2' in Ho2.
    apply posted_app in Ho1, Ho2. rewrite <- Hcls in Ho2.
    split; intros Hnamed; rewrite Hnamed in Hl1.
    + split; [|by rewrite Hl1, app_nil_r].
      eexists. split; [exact Ho1|].
      rewrite Ho2. by destruct (exn_class_of e1).
    + split; [|exact Hl1].
      rewrite Ho1. by destruct (exn_class_of e1).
  - intros Hs1 Hs2 Hpe1 Hpe2 Hsi1 Hsi2.
    assert (forall E st auth e,
              user_states st !! user_id = Some "waiting_2fa" ->
              pending_authentications st !! user_id = Some auth ->
              sign_in_password (ad_client auth) text = Raise e ->
              outbox (snd (handle_user_input md5_hexdigest E message st))
              = outbox st
                ++ [SendMessage chat_id
                      ("‚ùå " +:+ match exn_class_of e with
                                 | PasswordHashInvalidError =>
                                     "Invalid 2FA password"
                                 | _ => "Error: " +:+ exn_str e
                                 end)
                      (Some get_main_keyboard)]
              ∧ log (snd (handle_user_input md5_hexdigest E message st))
                = log st
                  ++ (if named_by_verify_2fa_password (exn_class_of e) then []
                      else [(ERROR, "Error with 2FA: " +:+ exn_str e)]))
      as Hrun.
    { intros E st auth e Hs Hpe Hsi.
      pose proof (verify_2fa_password_raises E user_id text st auth e Hpe Hsi)
        as Hv.
      unfold handle_user_input, send_message, post, del_user_state.
      monad_unfold.
      rewrite Hfrom, Htext. simpl. fold user_id. rewrite Hs. simpl.
      rewrite Hv.
      destruct (exn_class_of e); simpl;
        destruct (http_post E (List.length (outbox st))); simpl;
        rewrite ?Hs; simpl; rewrite ?app_nil_r; done. }
    destruct (Hrun E1 st1 auth1 e1 Hs1 Hpe1 Hsi1) as [Ho1 Hl1].
    destruct (Hrun E2 st2 auth2 e2 Hs2 Hpe2 Hsi2) as [Ho2 Hl2].
    fold st1' in Ho1, Hl1. fold st2' in Ho2.
    apply posted_app in Ho1, Ho2. rewrite <- Hcls in Ho2.
    split; intros Hnamed; rewrite Hnamed in Hl1.
    + split; [|by rewrite Hl1, app_nil_r].
      eexists. split; [exact Ho1|].
      rewrite Ho2. by destruct (exn_class_of e1).
    + split; [|exact Hl1].
      rewrite Ho1. by destruct (exn_class_of e1).
Qed.

Lemma failure_message_by_class_witness :
  let flood1 := Exn (FloodWaitError 30) "A wait of 30 seconds is required" in
  let flood2 := Exn (FloodWaitError 30) "FLOOD_WAIT_30" in
  let message := demo_message "private" "+15551234567" in
  posted awaiting_phone_state
    (snd (handle_user_input demo_digest (env_code_request_raises flood1)
            message awaiting_phone_state))
  = posted awaiting_phone_state
      (snd (handle_user_input demo_digest (env_code_request_raises flood2)
              message awaiting_phone_state)).
Proof.
  intros flood1 flood2 message.
  destruct (failure_message_by_class demo_digest
              (env_code_request_raises flood1)
              (env_code_request_raises flood2) message demo_user
              "+15551234567" awaiting_phone_state awaiting_phone_state
              (AuthData demo_client "+15551234567" "c0ffee" "")
              (AuthData demo_client "+15551234567" "c0ffee" "")
              flood1 flood2 eq_refl eq_refl eq_refl)
    as [Hbegin _].
  destruct Hbegin as [Hnamed _];
    [reflexivity|reflexivity|reflexivity|simpl; lia|reflexivity|reflexivity
    |reflexivity|reflexivity|].
  destruct (Hnamed eq_refl) as [(reply & H1 & H2) _].
  etrans; [exact H1|symmetry; exact H2].
Defined.

(** ** The status column *)

Section Preservation.

Variable P : state -> Prop.

Lemma preserves_ret {A} (a : A) : preserves P (ret a).
Proof. by intros st. Qed.

Lemma preserves_raise {A} (e : exn) : preserves P (@raise A e).
Proof. by intros st. Qed.

Lemma preserves_lift {A} (r : result A) : preserves P (lift r).
Proof. by intros st. Qed.

Lemma preserves_gets {A} (f : state -> A) : preserves P (gets f).
Proof. by intros st. Qed.

Lemma preserves_modify (f : state -> state) :
  (forall st, P st -> P (f st)) -> preserves P (modify f).
Proof. intros Hf st. apply Hf. Qed.

Lemma preserves_bind {A B} (m : M A) (k : A -> M B) :
  preserves P m -> (forall a, preserves P (k a)) -> preserves P (bind m k).
Proof.
  intros Hm Hk st HP. unfold bind. specialize (Hm st HP).
  destruct (m st) as [[a|e] st1]; simpl in *; [by apply Hk|done].
Qed.

Lemma preserves_try_except {A} (m : M A) (h : exn -> M A) :
  preserves P m -> (forall e, preserves P (h e)) ->
  preserves P (try_except m h).
Proof.
  intros Hm Hh st HP. unfold try_except. specialize (Hm st HP).
  destruct (m st) as [[a|e] st1]; simpl in *; [done|by apply Hh].
Qed.

Lemma preserves_for_each {A} (l : list A) (body : A -> M unit) :
  (forall x, preserves P (body x)) -> preserves P (for_each l body).
Proof.
  intros Hbody. induction l as [|x l IH]; simpl.
  - apply preserves_ret.
  - apply preserves_bind; [apply Hbody|by intros _].
Qed.

End Preservation.

(** One step of a proof that a computation keeps [store_ok]: the monad's
    combinators, a case distinction, or a change of the state that leaves
    the tables and the call record alone. *)
Ltac preserves_step :=
  lazymatch goal with
  | |- preserves _ (bind _ _) => apply preserves_bind; [|intros ?]
  | |- preserves _ (try_except _ _) => apply preserves_try_except; [|intros ?]
  | |- preserves _ (ret _) => apply preserves_ret
  | |- preserves _ (raise _) => apply preserves_raise
  | |- preserves _ (lift _) => apply preserves_lift
  | |- preserves _ (gets _) => apply preserves_gets
  | |- preserves _ (modify _) =>
      apply preserves_modify; let H := fresh in intros ? H; exact H
  | |- preserves _ (logger_info _) =>
      apply preserves_modify; let H := fresh in intros ? H; exact H
  | |- preserves _ (logger_error _) =>
      apply preserves_modify; let H := fresh in intros ? H; exact H
  | |- preserves _ (match ?x with _ => _ end) => destruct x
  end.

Lemma store_ok_add_user E user_id u f l :
  preserves store_ok (add_user E user_id u f l).
Proof.
  intros st [Hn Hc]. split; [exact Hn|].
  apply Forall_app. split; [exact Hc|]. by repeat constructor.
Qed.

Lemma store_ok_add_phone_number E user_id phone_number :
  preserves store_ok (add_phone_number E user_id phone_number).
Proof.
  intros st [Hn Hc]. split.
  - apply Forall_app. split; [exact Hn|]. apply Forall_singleton. by left.
  - apply Forall_app. split; [exact Hc|]. by repeat constructor.
Qed.

Lemma store_ok_get_user_numbers user_id :
  preserves store_ok (get_user_numbers user_id).
Proof.
  intros st [Hn Hc]. split; [exact Hn|].
  apply Forall_app. split; [exact Hc|]. by repeat constructor.
Qed.

Lemma store_ok_get_number_id user_id phone_number :
  preserves store_ok (get_number_id user_id phone_number).
Proof.
  intros st [Hn Hc]. split; [exact Hn|].
  apply Forall_app. split; [exact Hc|]. by repeat constructor.
Qed.

Lemma store_ok_save_session E user_id phone_number path :
  preserves store_ok (save_session E user_id phone_number path).
Proof.
  intros st [Hn Hc]. split; [exact Hn|].
  apply Forall_app. split; [exact Hc|]. by repeat constructor.
Qed.

Lemma status_ok_update_row number_id t r :
  status_ok r -> status_ok (update_row number_id "authenticated" true t r).
Proof.
  intros Hr. unfold update_row. case_decide; [by right|exact Hr].
Qed.

Lemma store_ok_update_number_status E number_id :
  preserves store_ok (update_number_status E number_id "authenticated" true).
Proof.
  intros st [Hn Hc]. split.
  - apply Forall_fmap. eapply Forall_impl; [exact Hn|].
    intros r. apply status_ok_update_row.
  - apply Forall_app. split; [exact Hc|]. by repeat constructor.
Qed.

Lemma store_ok_post E r : preserves store_ok (post E r).
Proof. by intros st H. Qed.

Lemma store_ok_del_pending_authentication user_id :
  preserves store_ok (del_pending_authentication user_id).
Proof. unfold del_pending_authentication. repeat preserves_step. Qed.

Lemma store_ok_del_user_state user_id :
  preserves store_ok (del_user_state user_id).
Proof. unfold del_user_state. repeat preserves_step. Qed.

Lemma store_ok_exec_h : preserves store_ok exec_h.
Proof. unfold exec_h. repeat preserves_step. Qed.

Create HintDb store_ok.
#[local] Hint Resolve store_ok_add_user store_ok_add_phone_number
  store_ok_get_user_numbers store_ok_get_number_id store_ok_save_session
  store_ok_update_number_status store_ok_post
  store_ok_del_pending_authentication store_ok_del_user_state
  store_ok_exec_h : store_ok.

Ltac preserves_auto :=
  repeat (first [ solve [ auto with store_ok ] | preserves_step ]).

Lemma store_ok_send_code md5_hexdigest E user_id phone_number :
  preserves store_ok (send_code md5_hexdigest E user_id phone_number).
Proof. unfold send_code, send_code_body. cbv zeta. preserves_auto. Qed.

Lemma store_ok_verify_code E user_id code :
  preserves store_ok (verify_code E user_id code).
Proof. unfold verify_code. cbv zeta. preserves_auto. Qed.

Lemma store_ok_verify_2fa_password E user_id password :
  preserves store_ok (verify_2fa_password E user_id password).
Proof. unfold verify_2fa_password. cbv zeta. preserves_auto. Qed.

Lemma store_ok_send_message E chat_id text markup :
  preserves store_ok (send_message E chat_id text markup).
Proof. apply store_ok_post. Qed.

Lemma store_ok_edit_message E chat_id message_id text markup :
  preserves store_ok (edit_message E chat_id message_id text markup).
Proof. apply store_ok_post. Qed.

Lemma store_ok_answer_callback_query E query_id text :
  preserves store_ok (answer_callback_query E query_id text).
Proof. apply store_ok_post. Qed.

#[local] Hint Resolve store_ok_send_message store_ok_edit_message
  store_ok_answer_callback_query store_ok_send_code store_ok_verify_code
  store_ok_verify_2fa_password : store_ok.

Lemma store_ok_get_numbers_keyboard user_id :
  preserves store_ok (get_numbers_keyboard user_id).
Proof. unfold get_numbers_keyboard. preserves_auto. Qed.

Lemma store_ok_handle_start_command E message :
  preserves store_ok (handle_start_command E message).
Proof. unfold handle_start_command. preserves_auto. Qed.

Lemma store_ok_handle_help_command E message :
  preserves store_ok (handle_help_command E message).
Proof. unfold handle_help_command. preserves_auto. Qed.

#[local] Hint Resolve store_ok_get_numbers_keyboard
  store_ok_handle_start_command store_ok_handle_help_command : store_ok.

Lemma store_ok_handle_user_input md5_hexdigest E message :
  preserves store_ok (handle_user_input md5_hexdigest E message).
Proof. unfold handle_user_input. cbv zeta. preserves_auto. Qed.

#[local] Hint Resolve store_ok_handle_user_input : store_ok.

Lemma store_ok_handle_text_message md5_hexdigest E message :
  preserves store_ok (handle_text_message md5_hexdigest E message).
Proof. unfold handle_text_message. cbv zeta. preserves_auto. Qed.

Lemma store_ok_handle_callback_query E callback_query :
  preserves store_ok (handle_callback_query E callback_query).
Proof. unfold handle_callback_query. cbv zeta. preserves_auto. Qed.

#[local] Hint Resolve store_ok_handle_text_message
  store_ok_handle_callback_query : store_ok.

Lemma store_ok_process_update md5_hexdigest E update :
  preserves store_ok (process_update md5_hexdigest E update).
Proof.
  unfold process_update, process_update_body. preserves_auto.
Qed.

Lemma store_ok_run md5_hexdigest batches :
  preserves store_ok (run md5_hexdigest batches).
Proof.
  unfold run. preserves_auto.
  apply preserves_for_each. intros updates.
  apply preserves_for_each. intros eu.
  apply store_ok_process_update.
Qed.

Lemma store_ok_reachable md5_hexdigest st :
  reachable md5_hexdigest st -> store_ok st.
Proof.
  intros [batches ->]. apply store_ok_run. split; constructor.
Qed.

(** [send_code] never writes to the store. *)
Lemma send_code_keeps_store md5_hexdigest E user_id phone_number st :
  numbers (snd (send_code md5_hexdigest E user_id phone_number st)) = numbers st
  ∧ db_calls (snd (send_code md5_hexdigest E user_id phone_number st))
    = db_calls st.
Proof.
  unfold send_code, send_code_body. monad_unfold. simpl.
  destruct (makedirs E) as [[]|e0]; simpl;
    [|by destruct (exn_class_of e0)].
  destruct (connect _) as [[]|e1]; simpl; [|by destruct (exn_class_of e1)].
  destruct (is_user_authorized _) as [[|]|e2]; simpl;
    [| |by destruct (exn_class_of e2)].
  - destruct (disconnect _) as [[]|e3]; simpl;
      [done|by destruct (exn_class_of e3)].
  - destruct (send_code_request _ _) as [h|e4]; simpl;
      [done|by destruct (exn_class_of e4)].
Qed.

Lemma verify_code_failed_keeps_store E user_id code st message_text st' :
  verify_code E user_id code st = (Ok (false, message_text), st') ->
  numbers st' = numbers st ∧ db_calls st' = db_calls st.
Proof.
  destruct (pending_authentications st !! user_id) as [auth|] eqn:Hp.
  - destruct (sign_in_code (ad_client auth) (ad_phone_number auth) code
                (ad_phone_code_hash auth)) as [[]|e] eqn:Hs.
    + rewrite (verify_code_success _ _ _ _ _ Hp Hs). intros [=].
    + rewrite (verify_code_raises _ _ _ _ _ _ Hp Hs).
      destruct (exn_class_of e); intros [= _ <-]; done.
  - rewrite (verify_code_no_entry _ _ _ _ Hp). by intros [= _ <-].
Qed.

Lemma verify_2fa_password_without_pending E user_id password st :
  pending_authentications st !! user_id = None ->
  verify_2fa_password E user_id password st
  = (Ok (false, "No pending authentication found"), st).
Proof.
  intros Hp. unfold verify_2fa_password. monad_unfold. simpl. by rewrite Hp.
Qed.

Lemma verify_2fa_password_failed_keeps_store E user_id password st
    message_text st' :
  verify_2fa_password E user_id password st = (Ok (false, message_text), st') ->
  numbers st' = numbers st ∧ db_calls st' = db_calls st.
Proof.
  destruct (pending_authentications st !! user_id) as [auth|] eqn:Hp.
  - destruct (sign_in_password (ad_client auth) password) as [[]|e] eqn:Hs.
    + rewrite (verify_2fa_password_success _ _ _ _ _ Hp Hs). intros [=].
    + rewrite (verify_2fa_password_raises _ _ _ _ _ _ Hp Hs).
      destruct (exn_class_of e); intros [= _ <-]; done.
  - rewrite (verify_2fa_password_without_pending _ _ _ _ Hp).
    by intros [= _ <-].
Qed.

(** C10. In every state the bot can reach, each phone-number record has the
    status ['pending'] or ['authenticated'], never ['failed'], and every
    status the store was asked to write is ['authenticated'].  A failed
    [send_code], [verify_code] or [verify_2fa_password] leaves the table of
    phone numbers as it was and makes no call on the store. *)
Theorem status_pending_or_authenticated (md5_hexdigest : string -> string) :
  (forall st, reachable md5_hexdigest st ->
     Forall (fun r => (nr_status r = "pending" ∨ nr_status r = "authenticated")
                      ∧ nr_status r <> "failed") (numbers st)
     ∧ Forall call_ok (db_calls st))
  ∧ (forall E user_id phone_number st message_text st',
       send_code md5_hexdigest E user_id phone_number st
         = (Ok (false, message_text), st') ->
       numbers st' = numbers st ∧ db_calls st' = db_calls st)
  ∧ (forall E user_id code st message_text st',
       verify_code E user_id code st = (Ok (false, message_text), st') ->
       numbers st' = numbers st ∧ db_calls st' = db_calls st)
  ∧ (forall E user_id password st message_text st',
       verify_2fa_password E user_id password st
         = (Ok (false, message_text), st') ->
       numbers st' = numbers st ∧ db_calls st' = db_calls st).
Proof.
  split; [|split; [|split]].
  - intros st Hr. destruct (store_ok_reachable _ _ Hr) as [Hn Hc].
    split; [|exact Hc].
    eapply Forall_impl; [exact Hn|].
    intros r Hs. split; [exact Hs|].
    by destruct Hs as [-> | ->].
  - intros E user_id phone_number st message_text st' Heq.
    pose proof (send_code_keeps_store md5_hexdigest E user_id phone_number st)
      as Hk.
    by rewrite Heq in Hk.
  - intros E user_id code st message_text st'.
    apply verify_code_failed_keeps_store.
  - intros E user_id password st message_text st'.
    apply verify_2fa_password_failed_keeps_store.
Qed.

Lemma status_pending_or_authenticated_witness :
  Forall (fun r => (nr_status r = "pending" ∨ nr_status r = "authenticated")
                   ∧ nr_status r <> "failed")
    (numbers (snd (process_update demo_digest demo_env
                     (snd (demo_update 1 "+15551234567"))
                     awaiting_phone_state)))
  ∧ numbers (snd (verify_code demo_env 7 "00000" awaiting_code_state))
    = numbers awaiting_code_state.
Proof.
  destruct (status_pending_or_authenticated demo_digest)
    as (Hreach & _ & Hcode & _).
  split.
  - apply Hreach.
    exists [[demo_update 1 add_number_label; demo_update 1 "+15551234567"]].
    reflexivity.
  - apply (Hcode demo_env 7 "00000" awaiting_code_state
             "Invalid verification code"). vm_compute. reflexivity.
Defined.

(** * Further properties *)

(** ** Properties every handler keeps

    A property of the state that survives the elementary changes of the
    state survives every handler, and so every update. *)

Section Frame.

Variable md5_hexdigest : string -> string.
Variable P : state -> Prop.

Hypothesis P_users : forall f st, P st -> P (set_telegram_bot_users f st).
Hypothesis P_call : forall c st, P st -> P (record_db_call c st).
Hypothesis P_user_states : forall f st, P st -> P (set_user_states f st).
Hypothesis P_outbox : forall r st, P st -> P (push_outbox r st).
Hypothesis P_log : forall l s st, P st -> P (push_log l s st).
Hypothesis P_add_phone_number :
  forall E user_id phone_number st,
    P st -> P (snd (add_phone_number E user_id phone_number st)).
Hypothesis P_send_code :
  forall E user_id phone_number h st,
    P st ->
    P (set_pending_authentications
         (<[user_id :=
              AuthData
                (new_client E (get_session_name md5_hexdigest user_id phone_number))
                phone_number h
                (get_session_name md5_hexdigest user_id phone_number)]>) st).
Hypothesis P_signed_in :
  forall E user_id auth st,
    P st -> pending_authentications st !! user_id = Some auth ->
    P (signed_in E user_id auth st).

Ltac frame_step :=
  unfold logger_info, logger_error;
  first
    [ apply preserves_modify; intros ? ?;
      first [ apply P_users | apply P_call | apply P_user_states
            | apply P_outbox | apply P_log ]; assumption
    | preserves_step ].

Lemma frame_post E r : preserves P (post E r).
Proof. intros st HP. by apply P_outbox. Qed.

Lemma frame_add_user E user_id u f l :
  preserves P (add_user E user_id u f l).
Proof. unfold add_user. repeat frame_step. Qed.

Lemma frame_add_phone_number E user_id phone_number :
  preserves P (add_phone_number E user_id phone_number).
Proof. intros st. apply P_add_phone_number. Qed.

Lemma frame_get_user_numbers user_id :
  preserves P (get_user_numbers user_id).
Proof. unfold get_user_numbers. repeat frame_step. Qed.

Lemma frame_del_user_state user_id : preserves P (del_user_state user_id).
Proof. unfold del_user_state. repeat frame_step. Qed.

Lemma frame_send_code E user_id phone_number :
  preserves P (send_code md5_hexdigest E user_id phone_number).
Proof.
  intros st HP. unfold send_code, send_code_body. monad_unfold. simpl.
  destruct (makedirs E) as [[]|e0]; simpl;
    [|destruct (exn_class_of e0); simpl; auto].
  destruct (connect _) as [[]|e1]; simpl;
    [|destruct (exn_class_of e1); simpl; auto].
  destruct (is_user_authorized _) as [[|]|e2]; simpl;
    [| |destruct (exn_class_of e2); simpl; auto].
  - destruct (disconnect _) as [[]|e3]; simpl;
      [done|destruct (exn_class_of e3); simpl; auto].
  - destruct (send_code_request _ _) as [h|e4]; simpl;
      [|destruct (exn_class_of e4); simpl; auto].
    apply P_log. by apply P_send_code.
Qed.

Lemma frame_verify_code E user_id code :
  preserves P (verify_code E user_id code).
Proof.
  intros st HP.
  destruct (pending_authentications st !! user_id) as [auth|] eqn:Hp.
  - destruct (sign_in_code (ad_client auth) (ad_phone_number auth) code
                (ad_phone_code_hash auth)) as [[]|e] eqn:Hs.
    + rewrite (verify_code_success _ _ _ _ _ Hp Hs). simpl.
      apply P_log. by apply P_signed_in.
    + rewrite (verify_code_raises _ _ _ _ _ _ Hp Hs).
      destruct (exn_class_of e); simpl; auto.
  - by rewrite (verify_code_no_entry _ _ _ _ Hp).
Qed.

Lemma frame_verify_2fa_password E user_id password :
  preserves P (verify_2fa_password E user_id password).
Proof.
  intros st HP.
  destruct (pending_authentications st !! user_id) as [auth|] eqn:Hp.
  - destruct (sign_in_password (ad_client auth) password) as [[]|e] eqn:Hs.
    + rewrite (verify_2fa_password_success _ _ _ _ _ Hp Hs). simpl.
      apply P_log. by apply P_signed_in.
    + rewrite (verify_2fa_password_raises _ _ _ _ _ _ Hp Hs).
      destruct (exn_class_of e); simpl; auto.
  - by rewrite (verify_2fa_password_without_pending _ _ _ _ Hp).
Qed.

Ltac frame_auto :=
  repeat first
    [ apply frame_post | apply frame_add_user | apply frame_add_phone_number
    | apply frame_get_user_numbers | apply frame_del_user_state
    | apply frame_send_code | apply frame_verify_code
    | apply frame_verify_2fa_password | frame_step ].

Lemma frame_get_numbers_keyboard user_id :
  preserves P (get_numbers_keyboard user_id).
Proof. unfold get_numbers_keyboard. frame_auto. Qed.

Lemma frame_handle_start_command E message :
  preserves P (handle_start_command E message).
Proof. unfold handle_start_command, send_message. frame_auto. Qed.

Lemma frame_handle_help_command E message :
  preserves P (handle_help_command E message).
Proof. unfold handle_help_command, send_message. frame_auto. Qed.

Lemma frame_handle_user_input E message :
  preserves P (handle_user_input md5_hexdigest E message).
Proof. unfold handle_user_input, send_message. cbv zeta. frame_auto. Qed.

Lemma frame_handle_text_message E message :
  preserves P (handle_text_message md5_hexdigest E message).
Proof.
  unfold handle_text_message, send_message. cbv zeta.
  repeat first [ apply frame_get_numbers_keyboard
               | apply frame_handle_help_command
               | apply frame_handle_user_input | apply frame_post | frame_step ].
Qed.

Lemma frame_handle_callback_query E callback_query :
  preserves P (handle_callback_query E callback_query).
Proof.
  unfold handle_callback_query, answer_callback_query, edit_message. cbv zeta.
  repeat first [ apply frame_get_numbers_keyboard | apply frame_post
               | frame_step ].
Qed.

(** What [process_update] does after it has set the offset. *)
Lemma frame_process_update_after_offset E update st :
  P (set_offset (update_id update + 1) st) ->
  P (snd (process_update md5_hexdigest E update st)).
Proof.
  intros HP.
  assert (preserves P
            (try_except
               (match upd_message update with
                | Some message =>
                    if negb (String.eqb (chat_type (msg_chat message)) "private")
                    then ret tt
                    else
                      match msg_text message with
                      | Some text =>
                          if String.prefix "/start" text
                          then handle_start_command E message
                          else if String.prefix "/help" text
                               then handle_help_command E message
                               else handle_text_message md5_hexdigest E message
                      | None => ret tt
                      end
                | None =>
                    match upd_callback_query update with
                    | Some callback_query =>
                        handle_callback_query E callback_query
                    | None => ret tt
                    end
                end)
               (fun e => logger_error ("Error processing update: " +:+ exn_str e)))) as Hrest.
  { repeat first [ apply frame_handle_start_command
                 | apply frame_handle_help_command
                 | apply frame_handle_text_message
                 | apply frame_handle_callback_query | frame_step ]. }
  exact (Hrest _ HP).
Qed.

Hypothesis P_offset : forall z st, P st -> P (set_offset z st).

Lemma frame_process_update E update :
  preserves P (process_update md5_hexdigest E update).
Proof.
  intros st HP. apply frame_process_update_after_offset. by apply P_offset.
Qed.

Lemma frame_run batches : preserves P (run md5_hexdigest batches).
Proof.
  unfold run. repeat frame_step.
  apply preserves_for_each. intros updates.
  apply preserves_for_each. intros eu. apply frame_process_update.
Qed.

End Frame.

(** ** The offset *)

(** X1. Whatever an update contains and whatever its handler does or
    raises, processing it leaves the offset at the update's id plus one, so
    the update is not fetched again. *)
Theorem process_update_advances_offset (md5_hexdigest : string -> string)
    (E : env) (update : tg_update) (st : state) :
  offset (snd (process_update md5_hexdigest E update st)) = update_id update + 1.
Proof.
  apply (frame_process_update_after_offset md5_hexdigest
           (fun s => offset s = update_id update + 1)); try done.
Qed.

(** ** The table of phone numbers *)

Lemma row_key_update_row number_id status is_authenticated t r :
  row_key (update_row number_id status is_authenticated t r) = row_key r.
Proof. unfold update_row. by case_decide. Qed.

Lemma row_keys_signed_in t user_id auth st :
  row_key <$> numbers (signed_in t user_id auth st) = row_key <$> numbers st.
Proof.
  simpl. rewrite <- list_fmap_compose. apply list_fmap_ext.
  intros i r _. apply row_key_update_row.
Qed.

Lemma rows_kept_run md5_hexdigest st0 batches :
  preserves (rows_kept st0) (run md5_hexdigest batches).
Proof.
  apply frame_run; try done.
  - intros E user_id phone_number st Hk. unfold rows_kept in *. simpl.
    rewrite fmap_app. by apply prefix_app_r.
  - intros E user_id auth st Hk _. unfold rows_kept in *.
    by rewrite row_keys_signed_in.
Qed.

(** X2. The bot never deletes or moves a phone-number record, and never
    changes its id, its owner or its phone number: whatever updates are
    processed, the record at each position is still there afterwards with the
    same three columns. *)
Theorem phone_records_are_kept (md5_hexdigest : string -> string)
    (batches : list (list (env * tg_update))) (st : state) (i : nat)
    (r : number_row) :
  numbers st !! i = Some r ->
  exists r', numbers (snd (run md5_hexdigest batches st)) !! i = Some r'
             ∧ nr_id r' = nr_id r
             ∧ nr_user_id r' = nr_user_id r
             ∧ nr_phone_number r' = nr_phone_number r.
Proof.
  intros Hi.
  assert (rows_kept st (snd (run md5_hexdigest batches st))) as Hk.
  { apply rows_kept_run. unfold rows_kept. reflexivity. }
  unfold rows_kept in Hk.
  assert ((row_key <$> numbers st) !! i = Some (row_key r)) as Hki.
  { by rewrite list_lookup_fmap, Hi. }
  eapply prefix_lookup_Some in Hki; [|exact Hk].
  rewrite list_lookup_fmap in Hki.
  destruct (numbers (snd (run md5_hexdigest batches st)) !! i) as [r'|];
    [|done].
  exists r'. injection Hki as Hid Hu Hp. done.
Qed.

Lemma phone_records_are_kept_witness :
  exists r', numbers (snd (run demo_digest
                             [[demo_update 3 "12345";
                               demo_update 4 add_number_label;
                               demo_update 5 "+15557654321"]]
                             awaiting_code_state)) !! 0%nat = Some r'
             ∧ nr_id r' = 1
             ∧ nr_user_id r' = 7
             ∧ nr_phone_number r' = "+15551234567".
Proof.
  apply (phone_records_are_kept demo_digest _ awaiting_code_state 0
           (NumberRow 1 7 "+15551234567" false 1699992800 None "pending")).
  reflexivity.
Defined.

Lemma ids_sequential_run md5_hexdigest batches :
  preserves ids_sequential (run md5_hexdigest batches).
Proof.
  apply frame_run; try done.
  - intros E user_id phone_number st Hs i r. simpl.
    intros [Hi|[Hlen Hi]]%lookup_app_Some.
    + by apply Hs.
    + apply list_lookup_singleton_Some in Hi as [Hi <-]. simpl.
      unfold next_rowid. lia.
  - intros E user_id auth st Hs _ i r. simpl.
    rewrite list_lookup_fmap.
    destruct (numbers st !! i) as [r0|] eqn:Hi; [|done].
    intros [= <-]. unfold update_row. case_decide; simpl; by apply Hs.
Qed.

Lemma ids_sequential_NoDup st :
  ids_sequential st -> NoDup (nr_id <$> numbers st).
Proof.
  intros Hs. apply NoDup_alt. intros i j z.
  rewrite !list_lookup_fmap.
  destruct (numbers st !! i) as [ri|] eqn:Hi; [|done].
  destruct (numbers st !! j) as [rj|] eqn:Hj; [|done].
  simpl. intros [= <-] [= Heq].
  rewrite (Hs _ _ Hi), (Hs _ _ Hj) in Heq. lia.
Qed.

(** X3. In every state the bot can reach the record at position [i] has the
    id [i + 1]; so ids are pairwise different, and the id that
    [add_phone_number] returns for a new record is one no record has. *)
Theorem phone_record_ids_unique (md5_hexdigest : string -> string)
    (E : env) (st : state) (user_id : Z) (phone_number : string) :
  reachable md5_hexdigest st ->
  ids_sequential st
  ∧ NoDup (nr_id <$> numbers st)
  ∧ exists rowid,
      fst (add_phone_number E user_id phone_number st) = Ok rowid
      ∧ (rowid ∉ (nr_id <$> numbers st))
      ∧ last (numbers (snd (add_phone_number E user_id phone_number st)))
        = Some (NumberRow rowid user_id phone_number false
                  (current_timestamp E) None "pending").
Proof.
  intros [batches ->].
  assert (ids_sequential (snd (run md5_hexdigest batches initial_state)))
    as Hs.
  { apply ids_sequential_run. by intros i r. }
  split; [exact Hs|]. split; [by apply ids_sequential_NoDup|].
  eexists. split; [reflexivity|]. split.
  - intros Hin. apply list_elem_of_fmap in Hin as (r & Hid & Hr).
    apply list_elem_of_lookup in Hr as [i Hi].
    pose proof (lookup_lt_Some _ _ _ Hi) as Hlt.
    rewrite (Hs _ _ Hi) in Hid. unfold next_rowid in Hid.
    cbn [numbers record_db_call] in Hid. lia.
  - simpl. by rewrite last_snoc.
Qed.

Lemma phone_record_ids_unique_witness :
  NoDup (nr_id <$> numbers awaiting_code_state).
Proof.
  apply (phone_record_ids_unique demo_digest demo_env awaiting_code_state 7
           "+15557654321").
  exists [[demo_update 1 add_number_label; demo_update 2 "+15551234567"]].
  reflexivity.
Defined.

Lemma flags_agree_run md5_hexdigest batches :
  preserves (fun st => Forall flags_agree (numbers st))
    (run md5_hexdigest batches).
Proof.
  apply frame_run; try done.
  - intros E user_id phone_number st Hf. simpl.
    apply Forall_app. split; [exact Hf|].
    apply Forall_singleton. by left.
  - intros E user_id auth st Hf _. simpl.
    apply Forall_fmap. eapply Forall_impl; [exact Hf|].
    intros r Hr. unfold compose, update_row. case_decide; [|exact Hr].
    right. by repeat split.
Qed.

(** X4. In every state the bot can reach, a phone-number record is either
    pending, not authenticated and without a last login, or authenticated,
    flagged so and with a last login: the three columns never disagree. *)
Theorem phone_record_flags_agree (md5_hexdigest : string -> string)
    (st : state) (r : number_row) :
  reachable md5_hexdigest st ->
  r ∈ numbers st ->
  (nr_is_authenticated r = true <-> nr_status r = "authenticated")
  ∧ (nr_is_authenticated r = false <-> nr_status r = "pending")
  ∧ (nr_last_login r = None <-> nr_status r = "pending").
Proof.
  intros [batches ->] Hin.
  assert (Forall flags_agree
            (numbers (snd (run md5_hexdigest batches initial_state)))) as Hf.
  { apply (flags_agree_run md5_hexdigest batches). constructor. }
  rewrite Forall_forall in Hf.
  destruct (Hf r Hin) as [(Hs & Ha & Hl)|(Hs & Ha & Hl)];
    rewrite Hs, Ha; repeat split; try done; try (intros ->; done).
Qed.

Lemma phone_record_flags_agree_witness :
  nr_is_authenticated (NumberRow 1 7 "+15551234567" false 1699992800 None "pending")
    = false
  <-> nr_status (NumberRow 1 7 "+15551234567" false 1699992800 None "pending")
      = "pending".
Proof.
  apply (phone_record_flags_agree demo_digest awaiting_code_state
           (NumberRow 1 7 "+15551234567" false 1699992800 None "pending")).
  - exists [[demo_update 1 add_number_label; demo_update 2 "+15551234567"]].
    reflexivity.
  - apply list_elem_of_here.
Defined.

(** ** Session names *)

Lemma names_ok_signed_in md5_hexdigest t user_id auth st :
  names_ok md5_hexdigest st ->
  pending_authentications st !! user_id = Some auth ->
  names_ok md5_hexdigest (signed_in t user_id auth st).
Proof.
  intros [Hp Hs] Hauth. split.
  - intros u a. simpl.
    destruct (decide (user_id = u)) as [->|Hne].
    + by rewrite lookup_delete_eq.
    + rewrite lookup_delete_ne by done. apply Hp.
  - simpl. apply Forall_app. split; [exact Hs|].
    apply Forall_singleton. simpl. split; [by apply Hp|done].
Qed.

Lemma names_ok_run md5_hexdigest batches :
  preserves (names_ok md5_hexdigest) (run md5_hexdigest batches).
Proof.
  apply frame_run; try done.
  - intros E user_id phone_number h st [Hp Hs]. split; [|exact Hs].
    intros u auth. simpl.
    destruct (decide (user_id = u)) as [->|Hne].
    + rewrite lookup_insert_eq. by intros [= <-].
    + rewrite lookup_insert_ne by done. apply Hp.
  - intros E user_id auth st Hn Hauth. by apply names_ok_signed_in.
Qed.

Lemma names_ok_reachable md5_hexdigest st :
  reachable md5_hexdigest st -> names_ok md5_hexdigest st.
Proof.
  intros [batches ->]. apply names_ok_run. split; [|constructor].
  intros user_id auth Hl. cbn in Hl. by rewrite lookup_empty in Hl.
Qed.

(** X5. In every state the bot can reach, the session name kept in a pending
    entry is the session name of the entry's own user and phone number, and
    every row of the sessions table is active and holds the session name of
    its own user and phone number. *)
Theorem session_names_belong_to_their_pair (md5_hexdigest : string -> string)
    (st : state) :
  reachable md5_hexdigest st ->
  (forall user_id auth,
      pending_authentications st !! user_id = Some auth ->
      ad_session_name auth
      = get_session_name md5_hexdigest user_id (ad_phone_number auth))
  ∧ (forall r,
        r ∈ telegram_bot_user_sessions st ->
        sr_session_file_path r
        = get_session_name md5_hexdigest (sr_user_id r) (sr_phone_number r)
        ∧ sr_is_active r = true).
Proof.
  intros Hr. destruct (names_ok_reachable _ _ Hr) as [Hp Hs].
  split; [exact Hp|]. by apply Forall_forall.
Qed.

Lemma session_names_belong_to_their_pair_witness :
  ad_session_name
    (AuthData demo_client "+15551234567" "c0ffee"
       (get_session_name demo_digest 7 "+15551234567"))
  = get_session_name demo_digest 7 "+15551234567".
Proof.
  destruct (session_names_belong_to_their_pair demo_digest awaiting_code_state)
    as [Hpending _].
  { exists [[demo_update 1 add_number_label; demo_update 2 "+15551234567"]].
    reflexivity. }
  apply (Hpending 7
           (AuthData demo_client "+15551234567" "c0ffee"
              (get_session_name demo_digest 7 "+15551234567"))).
  reflexivity.
Defined.

(** What [get_session] returns when the sessions table obeys [names_ok]. *)
Lemma get_session_names_ok md5_hexdigest user_id phone_number st :
  names_ok md5_hexdigest st ->
  get_session user_id phone_number st
  = (Ok (if bool_decide
              (Exists (fun r => sr_user_id r = user_id
                                ∧ sr_phone_number r = phone_number)
                 (telegram_bot_user_sessions st))
         then Some (get_session_name md5_hexdigest user_id phone_number)
         else None), st).
Proof.
  intros [_ Hs]. unfold get_session. monad_unfold. simpl. f_equal. f_equal.
  induction (telegram_bot_user_sessions st) as [|r rows IH].
  - reflexivity.
  - apply Forall_cons in Hs as [[Hpath Hact] Hs]. specialize (IH Hs).
    rewrite filter_cons. case_decide as Hr.
    + destruct Hr as (<- & <- & _).
      rewrite bool_decide_eq_true_2; [by rewrite Hpath|by left].
    + rewrite IH. apply f_equal with (f := fun b : bool => if b then _ else _).
      apply bool_decide_ext. rewrite Exists_cons. split; [by right|].
      intros [[Hu Hp]|Hex]; [|done]. exfalso. apply Hr. done.
Qed.

(** X6. In a state the bot can reach, [get_session] leaves the state alone
    and returns the session name of the pair when the sessions table has a
    row for it, and [None] when it has none; after a successful
    [verify_code] it returns the session name of the user who signed in. *)
Theorem get_session_returns_session_name (md5_hexdigest : string -> string)
    (E : env) (st : state) (user_id : Z) (phone_number code : string)
    (auth : auth_data) :
  reachable md5_hexdigest st ->
  get_session user_id phone_number st
  = (Ok (if bool_decide
              (Exists (fun r => sr_user_id r = user_id
                                ∧ sr_phone_number r = phone_number)
                 (telegram_bot_user_sessions st))
         then Some (get_session_name md5_hexdigest user_id phone_number)
         else None), st)
  ∧ (pending_authentications st !! user_id = Some auth ->
     sign_in_code (ad_client auth) (ad_phone_number auth) code
       (ad_phone_code_hash auth) = Ok tt ->
     fst (get_session user_id (ad_phone_number auth)
            (snd (verify_code E user_id code st)))
     = Ok (Some (get_session_name md5_hexdigest user_id (ad_phone_number auth)))).
Proof.
  intros Hr. pose proof (names_ok_reachable _ _ Hr) as Hn.
  split; [by apply get_session_names_ok|].
  intros Hp Hs. rewrite (verify_code_success _ _ _ _ _ Hp Hs).
  rewrite (get_session_names_ok md5_hexdigest).
  - cbn [fst snd]. rewrite bool_decide_eq_true_2; [done|].
    simpl. apply Exists_app. right. by left.
  - destruct (names_ok_signed_in md5_hexdigest E user_id auth st Hn Hp)
      as [Hp' Hs'].
    split; [exact Hp'|exact Hs'].
Qed.

Lemma get_session_returns_session_name_witness :
  fst (get_session 7 "+15551234567" awaiting_code_state) = Ok None
  ∧ fst (get_session 7 "+15551234567"
           (snd (verify_code demo_env 7 "12345" awaiting_code_state)))
    = Ok (Some (get_session_name demo_digest 7 "+15551234567")).
Proof.
  destruct (get_session_returns_session_name demo_digest demo_env
              awaiting_code_state 7 "+15551234567" "12345"
              (AuthData demo_client "+15551234567" "c0ffee"
                 (get_session_name demo_digest 7 "+15551234567")))
    as [Hnone Hsome].
  { exists [[demo_update 1 add_number_label; demo_update 2 "+15551234567"]].
    reflexivity. }
  split.
  - rewrite Hnone. reflexivity.
  - apply Hsome; reflexivity.
Defined.

(** ** Number buttons and the callback that reads them *)

Lemma rev_app_rev_app s a b :
  String.rev_app (String.rev_app s a) b = String.rev_app a (s +:+ b).
Proof.
  revert a b. induction s as [|c s IH]; intros a b; [reflexivity|].
  simpl. rewrite IH. reflexivity.
Qed.

Lemma append_empty_r s : s +:+ "" = s.
Proof.
  induction s as [|c s IH]; [reflexivity|].
  change (String c s +:+ "") with (String c (s +:+ "")). by rewrite IH.
Qed.

Lemma rev_involutive s : String.rev (String.rev s) = s.
Proof.
  unfold String.rev. rewrite rev_app_rev_app. simpl. apply append_empty_r.
Qed.

Lemma mem_char_rev_app c s acc :
  mem_char c (String.rev_app s acc) = mem_char c s || mem_char c acc.
Proof.
  revert acc. induction s as [|a s IH]; intros acc; [reflexivity|].
  simpl. rewrite IH. simpl. by destruct (Ascii.eqb c a), (mem_char c s).
Qed.

Lemma mem_char_rev c s : mem_char c (String.rev s) = mem_char c s.
Proof. unfold String.rev. rewrite mem_char_rev_app. simpl. apply orb_false_r. Qed.

Lemma split_go_no_separator sep cur s :
  mem_char sep s = false ->
  split_go sep cur s = [String.rev (String.rev_app s cur)].
Proof.
  revert cur. induction s as [|c s IH]; intros cur Hs; [reflexivity|].
  simpl in *. apply orb_false_iff in Hs as [Hc Hs].
  rewrite Ascii.eqb_sym, Hc. by apply IH.
Qed.

Lemma split_number_data s :
  mem_char "_" s = false -> split "_" ("number_" +:+ s) = ["number"; s].
Proof.
  intros Hs. unfold split.
  change ("number_" +:+ s)
    with (String "n" (String "u" (String "m" (String "b" (String "e"
            (String "r" (String "_" s))))))).
  cbn [split_go Ascii.eqb Bool.eqb]. cbn [String.rev String.rev_app].
  rewrite (split_go_no_separator _ _ _ Hs).
  change (String.rev_app s "") with (String.rev s).
  by rewrite rev_involutive.
Qed.

Lemma lstrip_no_space s :
  (forall c, Ascii.is_space c = true -> mem_char c s = false) ->
  lstrip s = s.
Proof.
  destruct s as [|a s]; [done|]. intros Hs. simpl.
  destruct (Ascii.is_space a) eqn:Ha; [|done].
  specialize (Hs a Ha). simpl in Hs. by rewrite Ascii.eqb_refl in Hs.
Qed.

Lemma strip_no_space s :
  (forall c, Ascii.is_space c = true -> mem_char c s = false) ->
  strip s = s.
Proof.
  intros Hs. unfold strip. rewrite (lstrip_no_space s Hs).
  rewrite lstrip_no_space; [apply rev_involutive|].
  intros c Hc. rewrite mem_char_rev. by apply Hs.
Qed.

Lemma pretty_N_char_not_space d c :
  Ascii.is_space c = true -> pretty_N_char d <> c.
Proof.
  intros Hc <-. unfold pretty_N_char in Hc. by repeat case_match.
Qed.

Lemma pretty_Z_no_space (z : Z) c :
  Ascii.is_space c = true -> mem_char c (pretty z) = false.
Proof.
  intros Hc.
  assert (forall p : positive, mem_char c (pretty p) = false) as Hpos.
  { intros p. unfold pretty, pretty_positive, pretty, pretty_N.
    case_decide; [done|].
    apply pretty_N_go_no_char; [|done].
    intros d. by apply pretty_N_char_not_space. }
  destruct z as [|p|p].
  - change (pretty 0) with "0". simpl. rewrite orb_false_r.
    apply Ascii.eqb_neq. by intros ->.
  - apply Hpos.
  - change (pretty (Z.neg p)) with (String "-" (pretty p)). simpl.
    rewrite Hpos, orb_false_r. apply Ascii.eqb_neq. by intros ->.
Qed.

Lemma digit_of_pretty_N_char d :
  (d < 10)%N -> digit_of (pretty_N_char d) = Some (Z.of_N d).
Proof.
  intros Hd.
  assert (d = 0 ∨ d = 1 ∨ d = 2 ∨ d = 3 ∨ d = 4 ∨ d = 5 ∨ d = 6 ∨ d = 7
          ∨ d = 8 ∨ d = 9)%N as Hcases by lia.
  repeat (destruct Hcases as [->|Hcases]; [reflexivity|]). by subst.
Qed.

Lemma digits_go_pretty_N_go x :
  exists k : nat, forall acc s,
    digits_go acc (pretty_N_go x s)
    = digits_go (acc * 10 ^ Z.of_nat k + Z.of_N x) s.
Proof.
  induction (N.lt_wf_0 x) as [x _ IH].
  destruct (decide (x = 0%N)) as [->|Hx].
  - exists 0%nat. intros acc s. rewrite pretty_N_go_0. f_equal. simpl. lia.
  - destruct (IH (x `div` 10)%N) as [k Hk]; [apply N.div_lt; lia|].
    exists (S k). intros acc s.
    rewrite pretty_N_go_step by lia. rewrite Hk. simpl.
    rewrite digit_of_pretty_N_char by (apply N.mod_lt; lia).
    f_equal. rewrite Nat2Z.inj_succ, Z.pow_succ_r by lia.
    rewrite N2Z.inj_div, N2Z.inj_mod.
    pose proof (Z.div_mod (Z.of_N x) 10). lia.
Qed.

Lemma pretty_N_go_head x c s :
  is_Some (digit_of c) ->
  exists a r, pretty_N_go x (String c s) = String a r ∧ is_Some (digit_of a).
Proof.
  revert c s. induction (N.lt_wf_0 x) as [x _ IH]; intros c s Hc.
  destruct (decide (x = 0%N)) as [->|Hx].
  - exists c, s. by rewrite pretty_N_go_0.
  - rewrite pretty_N_go_step by lia.
    apply IH; [apply N.div_lt; lia|].
    rewrite digit_of_pretty_N_char by (apply N.mod_lt; lia). by eexists.
Qed.

Lemma drop_underscores_none_to_drop after_digit s :
  mem_char "_" s = false -> drop_underscores after_digit s = Some s.
Proof.
  revert after_digit. induction s as [|c s IH]; intros after_digit Hs;
    [reflexivity|].
  cbn [mem_char drop_underscores] in *.
  apply orb_false_iff in Hs as [Hc Hs].
  rewrite Ascii.eqb_sym, Hc. by rewrite IH.
Qed.

Lemma pretty_N_char_is_ascii d : (nat_of_ascii (pretty_N_char d) <? 128)%nat = true.
Proof. unfold pretty_N_char. by repeat case_match. Qed.

Lemma pretty_N_go_is_ascii x s :
  is_ascii s = true -> is_ascii (pretty_N_go x s) = true.
Proof.
  revert s. induction (N.lt_wf_0 x) as [x _ IH]; intros s Hs.
  destruct (decide (x = 0%N)) as [->|Hx].
  - by rewrite pretty_N_go_0.
  - rewrite pretty_N_go_step by lia.
    apply IH; [apply N.div_lt; lia|].
    simpl. by rewrite Hs, pretty_N_char_is_ascii.
Qed.

Lemma pretty_Z_is_ascii (z : Z) : is_ascii (pretty z) = true.
Proof.
  assert (forall p : positive, is_ascii (pretty p) = true) as Hpos.
  { intros p. unfold pretty, pretty_positive, pretty, pretty_N.
    case_decide; [done|]. by apply pretty_N_go_is_ascii. }
  destruct z as [|p|p]; [done|apply Hpos|].
  change (pretty (Z.neg p)) with (String "-" (pretty p)). simpl. apply Hpos.
Qed.

Lemma int_unsigned E a r n :
  is_ascii (String a r) = true ->
  is_Some (digit_of a) ->
  strip (String a r) = String a r ->
  digits (String a r) = Some n ->
  int E (String a r) = Ok n.
Proof.
  intros Hascii [d Hd] Hstrip Hdigits. unfold int. rewrite Hascii, Hstrip.
  destruct a as [[] [] [] [] [] [] [] []];
    vm_compute in Hd; try discriminate Hd; by rewrite Hdigits.
Qed.

Lemma int_pretty_positive (p : positive) :
  exists a r, pretty p = String a r
              ∧ is_Some (digit_of a) ∧ digits (pretty p) = Some (Z.pos p).
Proof.
  assert (mem_char "_" (pretty p) = false) as Hus.
  { apply (pretty_Z_no_underscore (Z.pos p)). }
  revert Hus. unfold pretty, pretty_positive, pretty, pretty_N.
  case_decide as H0; [done|]. intros Hus.
  destruct (pretty_N_go_head (N.pos p `div` 10)
              (pretty_N_char (N.pos p `mod` 10)) "") as (a & r & Heq & Ha).
  { rewrite digit_of_pretty_N_char by (apply N.mod_lt; lia). by eexists. }
  rewrite <- pretty_N_go_step in Heq by lia.
  exists a, r. split; [exact Heq|]. split; [exact Ha|].
  destruct (digits_go_pretty_N_go (N.pos p)) as [k Hk].
  unfold digits. rewrite (drop_underscores_none_to_drop _ _ Hus).
  rewrite Heq, <- Heq, Hk. simpl. f_equal.
Qed.

(** [int(str(z))] is [z]. *)
Lemma int_pretty E (z : Z) : int E (pretty z) = Ok z.
Proof.
  pose proof (strip_no_space (pretty z) (pretty_Z_no_space z)) as Hstrip.
  pose proof (pretty_Z_is_ascii z) as Hascii.
  destruct z as [|p|p].
  - reflexivity.
  - destruct (int_pretty_positive p) as (a & r & Heq & Ha & Hd).
    change (pretty (Z.pos p)) with (pretty p) in *.
    rewrite Heq in *. by apply int_unsigned.
  - destruct (int_pretty_positive p) as (a & r & Heq & Ha & Hd).
    change (pretty (Z.neg p)) with (String "-" (pretty p)) in *.
    unfold int. rewrite Hascii, Hstrip. by rewrite Hd.
Qed.

Lemma prefix_number_data s : String.prefix "number_" ("number_" +:+ s) = true.
Proof. by destruct s. Qed.

Lemma number_data_not_back_main s :
  String.eqb ("number_" +:+ s) "back_main" = false.
Proof. reflexivity. Qed.

(** X7. Pressing a number button shows the details of that number: the
    callback data that [get_numbers_keyboard] gives the button of a record
    is read back by [handle_callback_query] as the id of that record, for
    every id, and nothing but the two requests is done. *)
Theorem number_button_round_trip (E : env) (callback_query : tg_callback_query)
    (message : tg_message) (r : number_row) (label data : string)
    (st : state) :
  number_button r = [(label, data)] ->
  cq_data callback_query = Some data ->
  cq_message callback_query = Some message ->
  http_post E (List.length (outbox st)) = Ok tt ->
  handle_callback_query E callback_query st
  = (http_post E (List.length (outbox st) + 1),
     push_outbox
       (EditMessageText (chat_id_of (msg_chat message)) (message_id message)
          ("üì± Number details for ID: " +:+ pretty (nr_id r) +:+ nl +:+ nl
           +:+ "More features coming soon!")
          (Some (InlineKeyboard [[("üîô Back", "back_numbers")]])))
       (push_outbox (AnswerCallbackQuery (cq_id callback_query) "") st)).
Proof.
  intros Hbutton Hdata Hmessage Hpost.
  injection Hbutton as _ <-.
  unfold handle_callback_query, answer_callback_query, edit_message, post.
  monad_unfold. rewrite Hdata, Hmessage. cbn [subscript]. rewrite Hpost.
  rewrite number_data_not_back_main, prefix_number_data.
  rewrite split_number_data by apply pretty_Z_no_underscore.
  cbn [list_item lookup list_lookup]. rewrite int_pretty.
  cbn [push_outbox outbox]. rewrite List.length_app. reflexivity.
Qed.

Lemma number_button_round_trip_witness :
  outbox (snd (handle_callback_query demo_env
                 (TgCallbackQuery "q3" demo_user
                    (Some (demo_message "private" "")) (Some "number_-42"))
                 initial_state))
  = [AnswerCallbackQuery "q3" "";
     EditMessageText 7 100
       ("üì± Number details for ID: -42" +:+ nl +:+ nl
        +:+ "More features coming soon!")
       (Some (InlineKeyboard [[("üîô Back", "back_numbers")]]))].
Proof.
  rewrite (number_button_round_trip demo_env _ (demo_message "private" "")
             (NumberRow (-42) 7 "+15551234567" false 1699992800 None "pending")
             "‚è≥ +15551234567 (pending)" "number_-42" initial_state);
    reflexivity.
Defined.

Lemma insert_by_added_at_Permutation r l :
  insert_by_added_at r l ≡ₚ r :: l.
Proof.
  induction l as [|x l IH]; simpl; [done|].
  case_match; [done|]. rewrite IH. apply Permutation_swap.
Qed.

Lemma order_by_added_at_desc_Permutation rows :
  order_by_added_at_desc rows ≡ₚ rows.
Proof.
  induction rows as [|r rows IH]; simpl; [done|].
  by rewrite insert_by_added_at_Permutation, IH.
Qed.

(** X8. The keyboard of a user's numbers is built from that user's records
    only: it holds the button of every record of the user and, besides the
    Back button, no other button; a user without records gets the single
    placeholder button.  Building it only reads the table. *)
Theorem numbers_keyboard_lists_own_numbers (user_id : Z) (st : state) :
  exists buttons,
    get_numbers_keyboard user_id st
    = (Ok (InlineKeyboard buttons), record_db_call (GetUserNumbers user_id) st)
    ∧ ((forall r, r ∈ numbers st -> nr_user_id r <> user_id) ->
       buttons = [[("No numbers added", "none")]])
    ∧ ((exists r, r ∈ numbers st ∧ nr_user_id r = user_id) ->
       List.length buttons
       = S (List.length (filter (fun r => nr_user_id r = user_id) (numbers st)))
       ∧ last buttons = Some [("üîô Back", "back_main")]
       ∧ (forall r, r ∈ numbers st -> nr_user_id r = user_id ->
            number_button r ∈ buttons)
       ∧ (forall b, b ∈ buttons ->
            b = [("üîô Back", "back_main")]
            ∨ exists r, r ∈ numbers st ∧ nr_user_id r = user_id
                        ∧ b = number_button r)).
Proof.
  unfold get_numbers_keyboard, get_user_numbers. monad_unfold.
  cbn [numbers record_db_call fst snd].
  set (rows := filter (fun r => nr_user_id r = user_id) (numbers st)).
  assert (forall r, r ∈ rows <-> r ∈ numbers st ∧ nr_user_id r = user_id)
    as Hrows.
  { intros r. unfold rows. rewrite list_elem_of_filter. tauto. }
  pose proof (order_by_added_at_desc_Permutation rows) as Hperm.
  destruct (order_by_added_at_desc rows) as [|r0 rest] eqn:Hrev.
  - eexists. split; [reflexivity|]. split; [done|].
    intros (r & Hr & Hu). exfalso.
    assert (r ∈ rows) as Hin by (by apply Hrows).
    rewrite <- Hperm in Hin. by apply not_elem_of_nil in Hin.
  - eexists. split; [reflexivity|]. split.
    + intros Hnone. exfalso.
      assert (r0 ∈ rows) as Hin.
      { rewrite <- Hperm. apply list_elem_of_here. }
      apply Hrows in Hin as [Hin Hu]. by apply (Hnone r0).
    + intros _.
      split; [|split; [|split]].
      * rewrite List.length_app, List.length_map, <- Hperm. simpl. lia.
      * apply last_snoc.
      * intros r Hr Hu. apply elem_of_app. left.
        apply list_elem_of_fmap. exists r. split; [done|].
        rewrite Hperm. by apply Hrows.
      * intros b [Hb|Hb]%elem_of_app.
        -- right. apply list_elem_of_fmap in Hb as (r & -> & Hr).
           rewrite Hperm in Hr. apply Hrows in Hr as [Hr Hu]. by exists r.
        -- left. by apply list_elem_of_singleton in Hb.
Qed.

Lemma numbers_keyboard_lists_own_numbers_witness :
  (exists buttons,
      fst (get_numbers_keyboard 7 awaiting_code_state)
      = Ok (InlineKeyboard buttons)
      ∧ List.length buttons = 2%nat
      ∧ number_button (NumberRow 1 7 "+15551234567" false 1699992800 None "pending")
        ∈ buttons)
  ∧ fst (get_numbers_keyboard 8 awaiting_code_state)
    = Ok (InlineKeyboard [[("No numbers added", "none")]]).
Proof.
  split.
  - destruct (numbers_keyboard_lists_own_numbers 7 awaiting_code_state)
      as (buttons & Heq & _ & Hsome).
    destruct Hsome as (Hlen & _ & Hin & _).
    { exists (NumberRow 1 7 "+15551234567" false 1699992800 None "pending").
      split; [apply list_elem_of_here|reflexivity]. }
    exists buttons. split; [by rewrite Heq|]. split; [exact Hlen|].
    apply Hin; [apply list_elem_of_here|reflexivity].
  - destruct (numbers_keyboard_lists_own_numbers 8 awaiting_code_state)
      as (buttons & Heq & Hnone & _).
    rewrite Heq. cbn [fst]. rewrite Hnone; [reflexivity|].
    intros r Hr. apply list_elem_of_singleton in Hr as ->. discriminate.
Defined.

(** ** More of the conversation *)

Lemma send_code_already_authorized md5_hexdigest E user_id phone_number st :
  makedirs E = Ok tt ->
  connect (new_client E (get_session_name md5_hexdigest user_id phone_number))
    = Ok tt ->
  is_user_authorized
    (new_client E (get_session_name md5_hexdigest user_id phone_number))
    = Ok true ->
  disconnect (new_client E (get_session_name md5_hexdigest user_id phone_number))
    = Ok tt ->
  send_code md5_hexdigest E user_id phone_number st
  = (Ok (true, "Already authenticated"), st).
Proof.
  intros Hm Hc Ha Hd. unfold send_code, send_code_body. monad_unfold. simpl.
  rewrite Hm. simpl. rewrite Hc. simpl. rewrite Ha. simpl. by rewrite Hd.
Qed.

(** X9. In the state [waiting_code], a code the account network rejects for
    any reason other than a missing password only makes the bot post the
    failure: the user stays in [waiting_code] with the pending entry in
    place, so the next text is taken as a code again, and the store is not
    touched. *)
Theorem rejected_code_keeps_waiting (md5_hexdigest : string -> string)
    (E : env) (message : tg_message) (user : tg_user) (text : string)
    (st : state) (auth : auth_data) (e : exn) :
  let st' := snd (handle_user_input md5_hexdigest E message st) in
  msg_from message = Some user ->
  msg_text message = Some text ->
  user_states st !! user_id_of user = Some "waiting_code" ->
  pending_authentications st !! user_id_of user = Some auth ->
  sign_in_code (ad_client auth) (ad_phone_number auth) text
    (ad_phone_code_hash auth) = Raise e ->
  exn_class_of e <> SessionPasswordNeededError ->
  user_states st' = user_states st
  ∧ pending_authentications st' = pending_authentications st
  ∧ numbers st' = numbers st
  ∧ telegram_bot_user_sessions st' = telegram_bot_user_sessions st
  ∧ db_calls st' = db_calls st
  ∧ exists message_text,
      fst (verify_code E (user_id_of user) text st) = Ok (false, message_text)
      ∧ outbox st'
        = outbox st
          ++ [SendMessage (chat_id_of (msg_chat message))
                ("‚ùå " +:+ message_text) None].
Proof.
  intros st' Hfrom Htext Hstate Hp Hs Hcls. subst st'.
  pose proof (verify_code_raises E (user_id_of user) text st auth e Hp Hs)
    as Hv.
  unfold handle_user_input, send_message, post. monad_unfold.
  rewrite Hfrom, Htext. simpl. rewrite Hstate. simpl.
  rewrite Hv.
  destruct (exn_class_of e); try done; simpl; repeat split; by eexists.
Qed.

Lemma rejected_code_keeps_waiting_witness :
  let st' := snd (handle_user_input demo_digest demo_env
                    (demo_message "private" "00000") awaiting_code_state) in
  user_states st' = user_states awaiting_code_state
  ∧ pending_authentications st' = pending_authentications awaiting_code_state.
Proof.
  destruct (rejected_code_keeps_waiting demo_digest demo_env
              (demo_message "private" "00000") demo_user "00000"
              awaiting_code_state
              (AuthData demo_client "+15551234567" "c0ffee"
                 (get_session_name demo_digest 7 "+15551234567"))
              (Exn PhoneCodeInvalidError "The phone code entered was invalid"))
    as (Hu & Hp & _); try reflexivity; [discriminate|].
  split; [exact Hu|exact Hp].
Defined.

(** X10. A valid phone number is recorded before the account network is
    asked anything.  When the network then reports the account as already
    authorized, no code is requested and no pending entry is made, the user
    is told so and goes back to idle, and the record just added stays
    ['pending']. *)
Theorem already_authorized_number_stays_pending
    (md5_hexdigest : string -> string) (E : env) (message : tg_message)
    (user : tg_user) (text : string) (st : state) :
  let user_id := user_id_of user in
  let chat_id := chat_id_of (msg_chat message) in
  let client := new_client E (get_session_name md5_hexdigest user_id text) in
  let st' := snd (handle_user_input md5_hexdigest E message st) in
  msg_from message = Some user ->
  msg_text message = Some text ->
  user_states st !! user_id = Some "waiting_phone" ->
  String.prefix "+" text = true -> (10 <= len text)%nat ->
  http_post E (List.length (outbox st)) = Ok tt ->
  http_post E (List.length (outbox st) + 1) = Ok tt ->
  makedirs E = Ok tt -> connect client = Ok tt ->
  is_user_authorized client = Ok true -> disconnect client = Ok tt ->
  fst (handle_user_input md5_hexdigest E message st) = Ok tt
  ∧ user_states st' = delete user_id (user_states st)
  ∧ pending_authentications st' = pending_authentications st
  ∧ numbers st'
    = numbers st
      ++ [NumberRow (next_rowid (numbers st)) user_id text false
            (current_timestamp E) None "pending"]
  ∧ db_calls st' = db_calls st ++ [AddPhoneNumber user_id text]
  ∧ outbox st'
    = outbox st
      ++ [SendMessage chat_id "‚è≥ Sending verification code..." None;
          SendMessage chat_id "‚úÖ This number is already authenticated!"
            (Some get_main_keyboard)].
Proof.
  intros user_id chat_id client st' Hfrom Htext Hstate Hplus Hlen Hp1 Hp2
    Hm Hc Ha Hd. subst st'.
  unfold handle_user_input, send_message, post, add_phone_number,
    del_user_state. monad_unfold.
  rewrite Hfrom, Htext. simpl. fold user_id. rewrite Hstate. simpl.
  rewrite Hplus. simpl.
  assert ((len text <? 10)%nat = false) as -> by (by apply Nat.ltb_ge).
  rewrite Hp1. simpl.
  rewrite (send_code_already_authorized _ _ _ _ _ Hm Hc Ha Hd). simpl.
  rewrite List.length_app. simpl. rewrite Hp2. simpl. rewrite Hstate. simpl.
  rewrite <- app_assoc. done.
Qed.

Lemma already_authorized_number_stays_pending_witness :
  let st' := snd (handle_user_input demo_digest authorized_env
                    (demo_message "private" "+15551234567")
                    awaiting_phone_state) in
  user_states st' !! 7 = None
  ∧ numbers st' = [NumberRow 1 7 "+15551234567" false 1699992800 None "pending"].
Proof.
  destruct (already_authorized_number_stays_pending demo_digest authorized_env
              (demo_message "private" "+15551234567") demo_user
              "+15551234567" awaiting_phone_state)
    as (_ & Hu & _ & Hn & _); try reflexivity; [simpl; lia|].
  cbv zeta. split; [|exact Hn].
  etrans; [exact (f_equal (fun m => m !! 7) Hu)|apply lookup_delete_eq].
Defined.

(** X11. When the code request fails, whatever the failure, the user is sent
    the failure with the main keyboard and goes back to idle; the registry
    is as before, and the phone number that was recorded first stays in the
    table as a ['pending'] record. *)
Theorem failed_code_request_returns_to_idle
    (md5_hexdigest : string -> string) (E : env) (message : tg_message)
    (user : tg_user) (text : string) (st : state) (e : exn) :
  let user_id := user_id_of user in
  let chat_id := chat_id_of (msg_chat message) in
  let client := new_client E (get_session_name md5_hexdigest user_id text) in
  let st' := snd (handle_user_input md5_hexdigest E message st) in
  msg_from message = Some user ->
  msg_text message = Some text ->
  user_states st !! user_id = Some "waiting_phone" ->
  String.prefix "+" text = true -> (10 <= len text)%nat ->
  http_post E (List.length (outbox st)) = Ok tt ->
  http_post E (List.length (outbox st) + 1) = Ok tt ->
  makedirs E = Ok tt -> connect client = Ok tt ->
  is_user_authorized client = Ok false ->
  send_code_request client text = Raise e ->
  fst (handle_user_input md5_hexdigest E message st) = Ok tt
  ∧ user_states st' = delete user_id (user_states st)
  ∧ pending_authentications st' = pending_authentications st
  ∧ numbers st'
    = numbers st
      ++ [NumberRow (next_rowid (numbers st)) user_id text false
            (current_timestamp E) None "pending"]
  ∧ db_calls st' = db_calls st ++ [AddPhoneNumber user_id text]
  ∧ exists message_text,
      outbox st'
      = outbox st
        ++ [SendMessage chat_id "‚è≥ Sending verification code..." None;
            SendMessage chat_id ("‚ùå " +:+ message_text)
              (Some get_main_keyboard)].
Proof.
  intros user_id chat_id client st' Hfrom Htext Hstate Hplus Hlen Hp1 Hp2
    Hm Hc Ha Hs. subst st'.
  unfold handle_user_input, send_message, post, add_phone_number,
    del_user_state. monad_unfold.
  rewrite Hfrom, Htext. simpl. fold user_id. rewrite Hstate. simpl.
  rewrite Hplus. simpl.
  assert ((len text <? 10)%nat = false) as -> by (by apply Nat.ltb_ge).
  rewrite Hp1. simpl.
  rewrite (send_code_raises _ _ _ _ _ _ Hm Hc Ha Hs).
  destruct (exn_class_of e); simpl;
    rewrite List.length_app; simpl; rewrite Hp2; simpl; rewrite Hstate; simpl;
    rewrite <- app_assoc; repeat split; by eexists.
Qed.

Lemma failed_code_request_returns_to_idle_witness :
  let st' := snd (handle_user_input demo_digest
                    (env_code_request_raises
                       (Exn PhoneNumberInvalidError "The phone number is invalid"))
                    (demo_message "private" "+10000000000")
                    awaiting_phone_state) in
  user_states st' !! 7 = None
  ∧ numbers st' = [NumberRow 1 7 "+10000000000" false 1699992800 None "pending"].
Proof.
  destruct (failed_code_request_returns_to_idle demo_digest
              (env_code_request_raises
                 (Exn PhoneNumberInvalidError "The phone number is invalid"))
              (demo_message "private" "+10000000000") demo_user
              "+10000000000" awaiting_phone_state
              (Exn PhoneNumberInvalidError "The phone number is invalid"))
    as (_ & Hu & _ & Hn & _); try reflexivity; [simpl; lia|].
  cbv zeta. split; [|exact Hn].
  etrans; [exact (f_equal (fun m => m !! 7) Hu)|apply lookup_delete_eq].
Defined.

(** ** Dispatching messages *)

(** X12. A text in a private chat that is no command and no menu label, from
    a user with no conversation in progress, is ignored: the offset
    advances and nothing else changes, no reply included. *)
Theorem idle_text_is_ignored (md5_hexdigest : string -> string) (E : env)
    (update : tg_update) (message : tg_message) (user : tg_user)
    (text : string) (st : state) :
  upd_message update = Some message ->
  chat_type (msg_chat message) = "private" ->
  msg_from message = Some user ->
  msg_text message = Some text ->
  String.prefix "/start" text = false ->
  String.prefix "/help" text = false ->
  text <> add_number_label -> text <> my_numbers_label ->
  text <> help_label ->
  user_states st !! user_id_of user = None ->
  process_update md5_hexdigest E update st
  = (Ok tt, set_offset (update_id update + 1) st).
Proof.
  intros Hm Hprivate Hfrom Htext Hstart Hhelp Hadd Hmy Hlabel Hidle.
  apply String.eqb_neq in Hadd, Hmy, Hlabel.
  unfold process_update, process_update_body, handle_text_message.
  monad_unfold. simpl. rewrite Hm, Hprivate, Htext. simpl.
  rewrite Hstart, Hhelp, Hfrom. simpl.
  rewrite Hadd, Hmy, Hlabel. simpl. rewrite Hidle. reflexivity.
Qed.

Lemma idle_text_is_ignored_witness :
  process_update demo_digest demo_env (snd (demo_update 5 "hello there"))
    initial_state
  = (Ok tt, set_offset 6 initial_state).
Proof.
  apply (idle_text_is_ignored demo_digest demo_env
           (snd (demo_update 5 "hello there"))
           (demo_message "private" "hello there") demo_user "hello there"
           initial_state); try reflexivity; discriminate.
Defined.

(** X13. The add-number label takes the user to [waiting_phone] from any
    conversation state, whether or not the prompt can be posted; a login in
    progress is not cancelled, its pending entry stays in the registry, and
    the store is not touched. *)
Theorem add_number_label_restarts_conversation
    (md5_hexdigest : string -> string) (E : env) (update : tg_update)
    (message : tg_message) (user : tg_user) (st : state) :
  let st' := snd (process_update md5_hexdigest E update st) in
  upd_message update = Some message ->
  chat_type (msg_chat message) = "private" ->
  msg_from message = Some user ->
  msg_text message = Some add_number_label ->
  user_states st' = <[user_id_of user := "waiting_phone"]> (user_states st)
  ∧ pending_authentications st' = pending_authentications st
  ∧ numbers st' = numbers st
  ∧ db_calls st' = db_calls st
  ∧ exists prompt,
      outbox st'
      = outbox st ++ [SendMessage (chat_id_of (msg_chat message)) prompt None].
Proof.
  intros st' Hm Hprivate Hfrom Htext. subst st'.
  unfold process_update, process_update_body, handle_text_message,
    send_message, post.
  monad_unfold. simpl. rewrite Hm, Hprivate, Htext. simpl.
  rewrite Hfrom. simpl.
  destruct (http_post E _); simpl; repeat split; by eexists.
Qed.

Lemma add_number_label_restarts_conversation_witness :
  let st' := snd (process_update demo_digest demo_env
                    (snd (demo_update 3 add_number_label))
                    awaiting_code_state) in
  user_states st' !! 7 = Some "waiting_phone"
  ∧ pending_authentications st' = pending_authentications awaiting_code_state.
Proof.
  destruct (add_number_label_restarts_conversation demo_digest demo_env
              (snd (demo_update 3 add_number_label))
              (demo_message "private" add_number_label) demo_user
              awaiting_code_state)
    as (Hu & Hp & _); try reflexivity.
  cbv zeta. split; [|exact Hp].
  etrans; [exact (f_equal (fun m => m !! 7) Hu)|apply lookup_insert_eq].
Defined.

(** X14. A text that begins with [/start] in a private chat stores the
    sender's names under the sender's id, with the current timestamp as
    [created_at], in place of whatever row the id had, and posts the welcome
    with the main keyboard; the conversation state, the registry and the
    phone numbers are left alone.  A second [/start] of the same sender
    replaces the row again: the users table is then the one a single
    [/start] at the time of the second would have given. *)
Theorem start_command_upserts_user (md5_hexdigest : string -> string)
    (E E2 : env) (update update2 : tg_update) (message message2 : tg_message)
    (user : tg_user) (text text2 : string) (st : state) :
  let st' := snd (process_update md5_hexdigest E update st) in
  upd_message update = Some message ->
  chat_type (msg_chat message) = "private" ->
  msg_from message = Some user ->
  msg_text message = Some text ->
  String.prefix "/start" text = true ->
  telegram_bot_users st'
  = <[user_id_of user :=
        UserRow (username user) (first_name user) (last_name user)
          (current_timestamp E) true]>
      (telegram_bot_users st)
  ∧ user_states st' = user_states st
  ∧ pending_authentications st' = pending_authentications st
  ∧ numbers st' = numbers st
  ∧ outbox st'
    = outbox st
      ++ [SendMessage (chat_id_of (msg_chat message)) (welcome_text user)
            (Some get_main_keyboard)]
  ∧ (upd_message update2 = Some message2 ->
     chat_type (msg_chat message2) = "private" ->
     msg_from message2 = Some user ->
     msg_text message2 = Some text2 ->
     String.prefix "/start" text2 = true ->
     telegram_bot_users (snd (process_update md5_hexdigest E2 update2 st'))
     = <[user_id_of user :=
           UserRow (username user) (first_name user) (last_name user)
             (current_timestamp E2) true]>
         (telegram_bot_users st)).
Proof.
  intros st' Hm Hprivate Hfrom Htext Hstart.
  assert (forall E0 u0 m0 t0 s0,
             upd_message u0 = Some m0 ->
             chat_type (msg_chat m0) = "private" ->
             msg_from m0 = Some user ->
             msg_text m0 = Some t0 ->
             String.prefix "/start" t0 = true ->
             let s1 := snd (process_update md5_hexdigest E0 u0 s0) in
             telegram_bot_users s1
             = <[user_id_of user :=
                   UserRow (username user) (first_name user) (last_name user)
                     (current_timestamp E0) true]>
                 (telegram_bot_users s0)
             ∧ user_states s1 = user_states s0
             ∧ pending_authentications s1 = pending_authentications s0
             ∧ numbers s1 = numbers s0
             ∧ outbox s1
               = outbox s0
                 ++ [SendMessage (chat_id_of (msg_chat m0)) (welcome_text user)
                       (Some get_main_keyboard)]) as Hone.
  { intros E0 u0 m0 t0 s0 H1 H2 H3 H4 H5.
    unfold process_update, process_update_body, handle_start_command,
      add_user, send_message, post.
    monad_unfold. simpl. rewrite H1, H2, H4. simpl. rewrite H5, H3. simpl.
    destruct (http_post E0 _); simpl; repeat split. }
  destruct (Hone E update message text st Hm Hprivate Hfrom Htext Hstart)
    as (Hu & Hs & Hp & Hn & Ho).
  fold st' in Hu, Hs, Hp, Hn, Ho.
  repeat (split; [assumption|]).
  intros Hm2 Hprivate2 Hfrom2 Htext2 Hstart2.
  destruct (Hone E2 update2 message2 text2 st' Hm2 Hprivate2 Hfrom2 Htext2
              Hstart2) as (Hu2 & _).
  rewrite Hu2, Hu. apply insert_insert_eq.
Qed.

Lemma start_command_upserts_user_witness :
  telegram_bot_users
    (snd (process_update demo_digest demo_env (snd (demo_update 1 "/start"))
            initial_state)) !! 7
  = Some (UserRow (Some "alice") (Some "Alice") None 1699992800 true).
Proof.
  destruct (start_command_upserts_user demo_digest demo_env demo_env
              (snd (demo_update 1 "/start")) (snd (demo_update 2 "/start x"))
              (demo_message "private" "/start")
              (demo_message "private" "/start x") demo_user "/start"
              "/start x" initial_state)
    as (Hu & _); [reflexivity..|].
  etrans; [exact (f_equal (fun m => m !! 7) Hu)|apply lookup_insert_eq].
Defined.

Lemma non_private_message_dropped_witness :
  process_update demo_digest demo_env
    (TgUpdate 4 (Some (demo_message "supergroup" add_number_label)) None)
    awaiting_code_state
  = (Ok tt, set_offset 5 awaiting_code_state).
Proof.
  apply (non_private_message_dropped demo_digest demo_env
           (TgUpdate 4 (Some (demo_message "supergroup" add_number_label)) None)
           (demo_message "supergroup" add_number_label) awaiting_code_state);
    [reflexivity|discriminate].
Defined.

(** ** What a sign-in changes *)

Lemma ids_sequential_reachable md5_hexdigest st :
  reachable md5_hexdigest st -> ids_sequential st.
Proof. intros [batches ->]. apply ids_sequential_run. by intros i r. Qed.

(** X15. A successful [verify_code] marks at most one phone-number record,
    one of the signed-in user with the signed-in phone number, and marks one
    whenever such a record exists; every other record, and the number of
    records, is as before. *)
Theorem sign_in_marks_one_record (md5_hexdigest : string -> string) (E : env)
    (user_id : Z) (code : string) (st : state) (auth : auth_data) :
  let st' := snd (verify_code E user_id code st) in
  let phone_number := ad_phone_number auth in
  reachable md5_hexdigest st ->
  pending_authentications st !! user_id = Some auth ->
  sign_in_code (ad_client auth) phone_number code (ad_phone_code_hash auth)
    = Ok tt ->
  List.length (numbers st') = List.length (numbers st)
  ∧ (forall i r,
       numbers st !! i = Some r ->
       numbers st' !! i = Some r
       ∨ (nr_user_id r = user_id ∧ nr_phone_number r = phone_number
          ∧ numbers st' !! i
            = Some (NumberRow (nr_id r) user_id phone_number true
                      (nr_added_at r) (Some (now E)) "authenticated")))
  ∧ (forall i j : nat,
       numbers st' !! i <> numbers st !! i ->
       numbers st' !! j <> numbers st !! j -> i = j)
  ∧ ((exists r, r ∈ numbers st ∧ nr_user_id r = user_id
                ∧ nr_phone_number r = phone_number) ->
     exists r, r ∈ numbers st' ∧ nr_user_id r = user_id
               ∧ nr_phone_number r = phone_number
               ∧ nr_status r = "authenticated"
               ∧ nr_is_authenticated r = true).
Proof.
  intros st' phone_number Hreach Hp Hs. subst st'.
  pose proof (ids_sequential_reachable _ _ Hreach) as Hids.
  rewrite (verify_code_success _ _ _ _ _ Hp Hs).
  cbn [snd numbers push_log signed_in]. fold phone_number.
  set (matching := filter (fun r => nr_user_id r = user_id
                                    ∧ nr_phone_number r = phone_number)
                     (numbers st)).
  set (number_id := match matching with r :: _ => nr_id r | [] => 0 end).
  assert (forall i r, numbers st !! i = Some r -> nr_id r = number_id ->
            nr_user_id r = user_id ∧ nr_phone_number r = phone_number)
    as Hmatch.
  { intros i r Hi Hid. unfold number_id in Hid.
    destruct matching as [|r0 rest] eqn:Hm.
    - rewrite (Hids _ _ Hi) in Hid. lia.
    - assert (r0 ∈ matching) as Hin by (rewrite Hm; apply list_elem_of_here).
      apply list_elem_of_filter in Hin as [Hr0 Hin].
      apply list_elem_of_lookup in Hin as [j Hj].
      rewrite (Hids _ _ Hi), (Hids _ _ Hj) in Hid.
      assert (i = j) as -> by lia.
      rewrite Hi in Hj. injection Hj as ->. exact Hr0. }
  assert (forall i,
            (update_row number_id "authenticated" true (now E)
               <$> numbers st) !! i <> numbers st !! i ->
            exists r, numbers st !! i = Some r ∧ nr_id r = number_id)
    as Hchanged.
  { intros i Hne. rewrite list_lookup_fmap in Hne.
    destruct (numbers st !! i) as [r|] eqn:Hi; [|done].
    exists r. split; [done|]. simpl in Hne. unfold update_row in Hne.
    by case_decide. }
  split; [apply length_fmap|]. split; [|split].
  - intros i r Hi. rewrite list_lookup_fmap, Hi. simpl.
    unfold update_row. case_decide as Hid; [|by left].
    right. destruct (Hmatch i r Hi Hid) as [Hu Hph].
    by rewrite Hu, Hph.
  - intros i j Hi Hj.
    destruct (Hchanged i Hi) as (ri & Hri & Hidi).
    destruct (Hchanged j Hj) as (rj & Hrj & Hidj).
    rewrite (Hids _ _ Hri) in Hidi. rewrite (Hids _ _ Hrj) in Hidj. lia.
  - intros (r & Hr & Hu & Hph).
    destruct matching as [|r0 rest] eqn:Hm.
    + exfalso. assert (r ∈ matching) as Hin.
      { unfold matching. apply list_elem_of_filter. done. }
      rewrite Hm in Hin. by apply not_elem_of_nil in Hin.
    + assert (r0 ∈ matching) as Hin by (rewrite Hm; apply list_elem_of_here).
      apply list_elem_of_filter in Hin as [[Hu0 Hp0] Hin].
      exists (update_row number_id "authenticated" true (now E) r0).
      split; [by apply list_elem_of_fmap_2|].
      unfold update_row, number_id. rewrite decide_True by done. done.
Qed.

Lemma sign_in_marks_one_record_witness :
  numbers (snd (verify_code demo_env 7 "12345" awaiting_code_state))
  = [NumberRow 1 7 "+15551234567" true 1699992800 (Some 1700000000) "authenticated"].
Proof.
  destruct (sign_in_marks_one_record demo_digest demo_env 7 "12345"
              awaiting_code_state
              (AuthData demo_client "+15551234567" "c0ffee"
                 (get_session_name demo_digest 7 "+15551234567")))
    as (Hlen & Hrows & _).
  { exists [[demo_update 1 add_number_label; demo_update 2 "+15551234567"]].
    reflexivity. }
  { reflexivity. }
  { reflexivity. }
  destruct (Hrows 0%nat (NumberRow 1 7 "+15551234567" false 1699992800 None "pending")
              eq_refl) as [Hsame|(_ & _ & Hnew)].
  - vm_compute in Hsame. discriminate.
  - vm_compute. reflexivity.
Defined.

(** X16. A successful [verify_code] files the client under the key of its
    own user and phone number; the client filed for any other user or phone
    number is not replaced, because two different pairs never share a
    key. *)
Theorem sign_in_files_client_under_own_key (E : env) (user_id : Z)
    (code : string) (st : state) (auth : auth_data) :
  let st' := snd (verify_code E user_id code st) in
  pending_authentications st !! user_id = Some auth ->
  sign_in_code (ad_client auth) (ad_phone_number auth) code
    (ad_phone_code_hash auth) = Ok tt ->
  active_clients st' !! user_phone_key user_id (ad_phone_number auth)
  = Some (ad_client auth)
  ∧ (forall other_id other_phone,
       (other_id, other_phone) <> (user_id, ad_phone_number auth) ->
       active_clients st' !! user_phone_key other_id other_phone
       = active_clients st !! user_phone_key other_id other_phone).
Proof.
  intros st' Hp Hs. subst st'.
  rewrite (verify_code_success _ _ _ _ _ Hp Hs).
  cbn [snd active_clients push_log signed_in]. split.
  - apply lookup_insert_eq.
  - intros other_id other_phone Hne. apply lookup_insert_ne.
    intros Heq. apply user_phone_key_inj in Heq as [Hu Hph].
    apply Hne. by rewrite Hu, Hph.
Qed.

Lemma sign_in_files_client_under_own_key_witness :
  active_clients (snd (verify_code demo_env 7 "12345" awaiting_code_state))
    !! "7_+15551234567"
  = Some demo_client.
Proof.
  apply (sign_in_files_client_under_own_key demo_env 7 "12345"
           awaiting_code_state
           (AuthData demo_client "+15551234567" "c0ffee"
              (get_session_name demo_digest 7 "+15551234567")));
    reflexivity.
Defined.

(** X17. Saving a session never replaces one: each successful [verify_code]
    adds a row to the sessions table and keeps every row that was there, so
    the pair that signs in has one more row than before, also when it had
    rows already. *)
Theorem sign_in_adds_a_session_row (E : env) (user_id : Z) (code : string)
    (st : state) (auth : auth_data) :
  let st' := snd (verify_code E user_id code st) in
  let phone_number := ad_phone_number auth in
  pending_authentications st !! user_id = Some auth ->
  sign_in_code (ad_client auth) phone_number code (ad_phone_code_hash auth)
    = Ok tt ->
  telegram_bot_user_sessions st'
  = telegram_bot_user_sessions st
    ++ [SessionRow (next_rowid (telegram_bot_user_sessions st)) user_id
          phone_number None (ad_session_name auth) (current_timestamp E)
          true]
  ∧ List.length (sessions_of user_id phone_number st')
    = S (List.length (sessions_of user_id phone_number st))
  ∧ (forall r, r ∈ telegram_bot_user_sessions st ->
       r ∈ telegram_bot_user_sessions st').
Proof.
  intros st' phone_number Hp Hs. subst st'.
  rewrite (verify_code_success _ _ _ _ _ Hp Hs).
  cbn [snd telegram_bot_user_sessions push_log signed_in].
  fold phone_number. split; [done|]. split.
  - unfold sessions_of. cbn [telegram_bot_user_sessions push_log signed_in].
    rewrite filter_app, List.length_app.
    rewrite filter_cons_True by done. simpl. lia.
  - intros r Hr. apply elem_of_app. by left.
Qed.

Lemma sign_in_adds_a_session_row_witness :
  let st1 := snd (verify_code demo_env 7 "12345" awaiting_code_state) in
  let st2 := snd (send_code demo_digest demo_env 7 "+15551234567" st1) in
  let st3 := snd (verify_code demo_env 7 "12345" st2) in
  List.length (sessions_of 7 "+15551234567" st3) = 2%nat.
Proof.
  intros st1 st2 st3.
  destruct (sign_in_adds_a_session_row demo_env 7 "12345" st2
              (AuthData demo_client "+15551234567" "c0ffee"
                 (get_session_name demo_digest 7 "+15551234567")))
    as (_ & Hlen & _); [reflexivity..|].
  exact Hlen.
Defined.

(** X18. The reply is posted before the conversation state is removed.  So
    when the password is accepted but the reply cannot be posted, the
    handler raises with the sign-in done and the pending entry deleted while
    the user is still in [waiting_2fa]; the next text of the user is then
    answered with the no-pending-authentication failure. *)
Theorem unposted_reply_leaves_waiting_2fa (md5_hexdigest : string -> string)
    (E E2 : env) (message : tg_message) (user : tg_user)
    (text text2 : string) (st : state) (auth : auth_data) (e : exn) :
  let user_id := user_id_of user in
  let st' := snd (handle_user_input md5_hexdigest E message st) in
  msg_from message = Some user ->
  msg_text message = Some text ->
  user_states st !! user_id = Some "waiting_2fa" ->
  pending_authentications st !! user_id = Some auth ->
  sign_in_password (ad_client auth) text = Ok tt ->
  http_post E (List.length (outbox st)) = Raise e ->
  fst (handle_user_input md5_hexdigest E message st) = Raise e
  ∧ user_states st' = user_states st
  ∧ pending_authentications st' !! user_id = None
  ∧ count_calls is_save_session st' = S (count_calls is_save_session st)
  ∧ fst (verify_2fa_password E2 user_id text2 st')
    = Ok (false, "No pending authentication found").
Proof.
  intros user_id st' Hfrom Htext Hstate Hp Hs Hpost.
  assert (handle_user_input md5_hexdigest E message st
          = (Raise e,
             push_outbox
               (SendMessage (chat_id_of (msg_chat message))
                  ("‚úÖ" +:+ " " +:+ "2FA authentication successful!")
                  (Some get_main_keyboard))
               (push_log INFO
                  ("2FA authentication successful for "
                   +:+ ad_phone_number auth +:+ ", user " +:+ pretty user_id)
                  (signed_in E user_id auth st)))) as Heq.
  { unfold handle_user_input, send_message, post. monad_unfold.
    rewrite Hfrom, Htext. simpl. fold user_id. rewrite Hstate. simpl.
    rewrite (verify_2fa_password_success _ _ _ _ _ Hp Hs). simpl.
    by rewrite Hpost. }
  subst st'. rewrite Heq. cbn [fst snd].
  split; [done|]. split; [done|].
  assert (pending_authentications
            (push_outbox
               (SendMessage (chat_id_of (msg_chat message))
                  ("‚úÖ" +:+ " " +:+ "2FA authentication successful!")
                  (Some get_main_keyboard))
               (push_log INFO
                  ("2FA authentication successful for "
                   +:+ ad_phone_number auth +:+ ", user " +:+ pretty user_id)
                  (signed_in E user_id auth st))) !! user_id = None)
    as Hnone.
  { simpl. apply lookup_delete_eq. }
  split; [exact Hnone|]. split.
  - erewrite count_calls_app by (simpl; reflexivity). simpl. lia.
  - by rewrite (verify_2fa_password_without_pending _ _ _ _ Hnone).
Qed.

Lemma unposted_reply_leaves_waiting_2fa_witness :
  let st' := snd (handle_user_input demo_digest offline_env
                    (demo_message "private" "hunter2") awaiting_2fa_state) in
  user_states st' !! 7 = Some "waiting_2fa"
  ∧ pending_authentications st' !! 7 = None.
Proof.
  destruct (unposted_reply_leaves_waiting_2fa demo_digest offline_env demo_env
              (demo_message "private" "hunter2") demo_user "hunter2" "again"
              awaiting_2fa_state
              (AuthData demo_client "+15551234567" "c0ffee"
                 (get_session_name demo_digest 7 "+15551234567"))
              (Exn OtherException "Cannot connect to host"))
    as (_ & Hu & Hp & _); [reflexivity..|].
  cbv zeta. split; [|exact Hp].
  etrans; [exact (f_equal (fun m => m !! 7) Hu)|reflexivity].
Defined.
